(** * Hook Relay Next.js SDK: signature module and request wrapper

    A shallow embedding of [services/crypto.ts], [services/signature.ts],
    [services/outcome.ts] and [withHookRelay.ts], with the properties the
    specification states about them.

    Conventions of the embedding
    - a JavaScript string is the list of its UTF-16 code units ([list Z],
      every unit in [0, 65536));
    - the numbers the program computes with (timestamps, clock readings,
      durations) are integers; doubles are exact on integers up to 2^53 and
      the clock stays far below that, so they are modelled by [Z], and
      [NaN] by [None] (a digit string worth more than 2^53 parses to a
      double of at least 2^53, as far outside any tolerance as its exact
      value);
    - what the host provides (TextEncoder, crypto.subtle, JSON, Date
      formatting) is an interface, [Platform]; the process environment, the
      clock and the network are an explicit [World];
    - asynchronous code is awaited strictly in sequence by the source, so a
      computation is a function from the world and the state reached so far
      to a result (a value or a thrown exception) and the next state. *)

From Stdlib Require Import ZArith Lia Ascii String.
From Stdlib.Strings Require Byte.
From stdpp Require Import base gmap strings list.

Open Scope Z_scope.

(** ** JavaScript strings *)

Abbreviation jsstring := (list Z).

(** The code units of an ASCII literal. *)
Definition js (s : string) : jsstring :=
  (λ a, Z.of_N (N_of_ascii a)) <$> list_ascii_of_string s.

Arguments js : simpl never.

Definition code_unit (c : Z) : Prop := 0 ≤ c < 65536.

Definition wf_string (s : jsstring) : Prop := Forall code_unit s.

(** [s.startsWith(p)] *)
Fixpoint startsWith (s p : jsstring) {struct p} : bool :=
  match p, s with
  | [], _ => true
  | c :: p', d :: s' => (c =? d) && startsWith s' p'
  | _ :: _, [] => false
  end.

(** [s.slice(n)] for a non-negative [n]. *)
Definition slice (s : jsstring) (n : nat) : jsstring := drop n s.

(** [s.charCodeAt(i)]; [None] is the [NaN] of an index out of range. *)
Definition charCodeAt (s : jsstring) (i : nat) : option Z := s !! i.

(** [s.padStart(n, f)] for a one-character fill string [f]. *)
Definition padStart (s : jsstring) (n : nat) (fill : Z) : jsstring :=
  replicate (n - length s) fill ++ s.

(** ** Numbers *)

(** The digit character of a digit value below 36: ['0'..'9'], ['a'..'z']. *)
Definition digitChar (d : Z) : Z := if d <? 10 then 48 + d else 87 + d.

(** The digits of a non-negative integer in a radix, most significant
    first; [fuel] bounds the number of digits. *)
Fixpoint toRadix (radix : Z) (fuel : nat) (n : Z) (acc : jsstring) : jsstring :=
  match fuel with
  | O => acc
  | S fuel' =>
      let acc' := digitChar (n mod radix) :: acc in
      if n <? radix then acc' else toRadix radix fuel' (n / radix) acc'
  end.

Definition digitsFuel (n : Z) : nat := S (Z.to_nat (Z.log2 n)).

(** [n.toString(radix)] for a non-negative integer [n]. *)
Definition Number_toString (n : Z) (radix : Z) : jsstring :=
  toRadix radix (digitsFuel n) n [].

(** [String(n)] for an integer [n] of magnitude below 10^21: plain decimal
    digits. From 10^21 on JavaScript writes an exponent ("1e+21"), which
    this definition does not follow: a statement about the rendering of a
    number holds for the code where the number is below that bound, as
    every timestamp within the tolerance of a clock reading is. *)
Definition String_of_number (n : Z) : jsstring :=
  if n <? 0 then 45 :: Number_toString (- n) 10 else Number_toString n 10.

(** White space and line terminators, which [parseInt] skips. *)
Definition isWhiteSpace (c : Z) : bool :=
  (c =? 9) || (c =? 10) || (c =? 11) || (c =? 12) || (c =? 13) || (c =? 32)
  || (c =? 160) || (c =? 5760) || ((8192 <=? c) && (c <=? 8202))
  || (c =? 8232) || (c =? 8233) || (c =? 8239) || (c =? 8287)
  || (c =? 12288) || (c =? 65279).

Fixpoint trimStart (s : jsstring) : jsstring :=
  match s with
  | c :: s' => if isWhiteSpace c then trimStart s' else s
  | [] => []
  end.

Definition isDecimalDigit (c : Z) : bool := (48 <=? c) && (c <=? 57).

(** The longest prefix of decimal digits. *)
Fixpoint digitPrefix (s : jsstring) : jsstring :=
  match s with
  | c :: s' => if isDecimalDigit c then c :: digitPrefix s' else []
  | [] => []
  end.

Definition mathInt (digits : jsstring) : Z :=
  fold_left (λ a c, 10 * a + (c - 48)) digits 0.

(** [parseInt(s, 10)]: skip white space, read an optional sign, then the
    longest run of decimal digits; [NaN] when that run is empty. The value
    is the exact integer the digits denote, the two zeros being one.
    JavaScript returns the nearest double, which is that integer up to 2^53
    in magnitude and may differ beyond: a statement about a parsed value
    holds for the code where the value is within that bound, as every
    timestamp within the tolerance of a clock reading is. *)
Definition parseInt (s : jsstring) : option Z :=
  let trimmed := trimStart s in
  let '(sign, unsigned) :=
    match trimmed with
    | c :: rest =>
        if c =? 45 then (-1, rest) else if c =? 43 then (1, rest) else (1, trimmed)
    | [] => (1, trimmed)
    end in
  match digitPrefix unsigned with
  | [] => None
  | digits => Some (sign * mathInt digits)
  end.

(** ** Bit operations on numbers *)

Definition ToInt32 (z : Z) : Z :=
  let m := z mod 2 ^ 32 in if m <? 2 ^ 31 then m else m - 2 ^ 32.

(** [ToInt32] of a possibly [NaN] operand. *)
Definition ToInt32_opt (o : option Z) : Z :=
  match o with Some z => ToInt32 z | None => 0 end.

(** [x ^ y] *)
Definition bitxor (x y : option Z) : Z :=
  ToInt32 (Z.lxor (ToInt32_opt x) (ToInt32_opt y)).

(** [x | y] *)
Definition bitor (x y : Z) : Z := ToInt32 (Z.lor (ToInt32 x) (ToInt32 y)).

(** ** services/crypto.ts: constant-time comparison *)

(** The loop [for (let i = 0; i < a.length; i++) result |= ...], from index
    [i] with [remaining] iterations to go. *)
Fixpoint timingSafeEqual_loop (a b : jsstring) (i remaining : nat) (result : Z) : Z :=
  match remaining with
  | O => result
  | S remaining' =>
      timingSafeEqual_loop a b (S i) remaining'
        (bitor result (bitxor (charCodeAt a i) (charCodeAt b i)))
  end.

Definition timingSafeEqual (a b : jsstring) : bool :=
  if negb (length a =? length b)%nat then false
  else timingSafeEqual_loop a b 0 (length a) 0 =? 0.

(** ** JavaScript values

    The values a parsed JSON document or a thrown non-error can be.
    Numbers are integers (see the conventions above); an object is the list
    of its own properties in insertion order. *)
#[local] Set Warnings "-register-all".
Inductive JSValue : Type :=
  | VUndefined
  | VNull
  | VBool (b : bool)
  | VNumber (n : Z)
  | VString (s : jsstring)
  | VArray (items : list JSValue)
  | VObject (fields : list (jsstring * JSValue)).

(** [String(v)] *)
Fixpoint String_of_value (v : JSValue) : jsstring :=
  match v with
  | VUndefined => js "undefined"
  | VNull => js "null"
  | VBool true => js "true"
  | VBool false => js "false"
  | VNumber n => String_of_number n
  | VString s => s
  | VArray items =>
      (fix join (l : list JSValue) : jsstring :=
         match l with
         | [] => []
         | x :: rest =>
             let elem :=
               match x with
               | VUndefined | VNull => []
               | _ => String_of_value x
               end in
             match rest with
             | [] => elem
             | _ :: _ => elem ++ 44 :: join rest
             end
         end) items
  | VObject _ => js "[object Object]"
  end.

(** [!v] *)
Definition falsy (v : JSValue) : bool :=
  match v with
  | VUndefined | VNull | VBool false | VNumber 0 | VString [] => true
  | _ => false
  end.

(** [typeof v === 'object'] *)
Definition typeof_object (v : JSValue) : bool :=
  match v with
  | VNull | VArray _ | VObject _ => true
  | _ => false
  end.

(** [v.key]: an own property of an object, [undefined] otherwise. *)
Fixpoint lookup_field (key : jsstring) (fields : list (jsstring * JSValue)) : JSValue :=
  match fields with
  | [] => VUndefined
  | (k, v) :: rest => if bool_decide (k = key) then v else lookup_field key rest
  end.

Definition get_property (v : JSValue) (key : jsstring) : JSValue :=
  match v with
  | VObject fields => lookup_field key fields
  | _ => VUndefined
  end.

(** ** Exceptions and results *)

(** What a [throw] or a rejected promise carries, as far as a [catch]
    block can tell:
    - [ErrorInstance]: an [Error] instance whose [name], [message] and
      [stack] are plain strings, as the type [Error] declares them ([stack]
      may be absent);
    - [ThrownValue]: any other value that [String] converts: plain data, or
      an object standing for what its [toString] returns;
    - [Unconvertible raised]: a value whose inspection itself throws
      [raised]: an object that is no [Error] and that [String] cannot
      convert (one without prototype, as [Object.create(null)], or one whose
      [toString] throws), or an [Error] whose [name], [message] or [stack]
      is an accessor that throws. *)
Inductive Thrown : Type :=
  | ErrorInstance (name message : jsstring) (stack : option jsstring)
  | ThrownValue (v : JSValue)
  | Unconvertible (raised : Thrown).

Inductive Result (A : Type) : Type :=
  | Ok (a : A)
  | Throw (e : Thrown).
Arguments Ok {A} a.
Arguments Throw {A} e.

(** ** The host platform *)

Inductive OutcomeStatus : Type := success | failure.

Record ErrorInfo : Type := {
  error_name : jsstring;
  error_message : jsstring;
  error_stack : option jsstring
}.

(** [OutcomePayload] of [types.ts]. *)
Record OutcomePayload : Type := {
  status : OutcomeStatus;
  durationMs : Z;
  error : option ErrorInfo
}.

(** What the source takes from its host: [TextEncoder.encode], the
    [importKey]/[sign] pair of [crypto.subtle] for HMAC with SHA-256 (key
    bytes, then message bytes; it may reject), [JSON.parse] ([None] is its
    [SyntaxError]), [JSON.stringify] on an outcome,
    [Date.prototype.toISOString] on an instant in milliseconds, and the
    [stack] the host gives a new [Error] with a given message. *)
Class Platform : Type := {
  TextEncoder_encode : jsstring → list Byte.byte;
  subtle_HMAC_SHA256 : list Byte.byte → list Byte.byte → Result (list Byte.byte);
  JSON_parse : jsstring → option JSValue;
  JSON_stringify : OutcomePayload → jsstring;
  Date_toISOString : Z → jsstring;
  Error_stack : jsstring → option jsstring
}.

(** ** services/crypto.ts: signing *)

Definition SIGNATURE_VERSION : jsstring := js "v1".
Definition TIMESTAMP_TOLERANCE_SECONDS : Z := 300.

(** [Array.from(bytes).map((b) => b.toString(16).padStart(2, '0')).join('')] *)
Definition hexDigest (bytes : list Byte.byte) : jsstring :=
  concat ((λ b, padStart (Number_toString (Z.of_N (Byte.to_N b)) 16) 2 48) <$> bytes).

Section Signing.
Context {host : Platform}.

Definition signPayload (timestamp : Z) (payload secret : jsstring) : Result jsstring :=
  let signedPayload := String_of_number timestamp ++ js "." ++ payload in
  match subtle_HMAC_SHA256 (TextEncoder_encode secret) (TextEncoder_encode signedPayload) with
  | Throw e => Throw e
  | Ok signature => Ok (SIGNATURE_VERSION ++ js "=" ++ hexDigest signature)
  end.
End Signing.

(** ** The world a handler runs in *)

(** A [fetch] call as the source issues it. *)
Record FetchCall : Type := {
  url : jsstring;
  method : jsstring;
  fetch_headers : list (string * jsstring);
  fetch_body : jsstring
}.

(** The fields of a [fetch] response the source reads. *)
Record FetchResponse : Type := {
  ok : bool;
  response_status : Z;
  statusText : jsstring
}.

(** [HookRelayEvent] of [types.ts]; [acknowledge] is a no-op and carries no
    data. [event_attempt] is [None] for [NaN]. *)
Record HookRelayEvent : Type := {
  event_id : jsstring;
  event_provider : jsstring;
  event_providerEventId : JSValue;
  event_payload : JSValue;
  event_receivedAt : jsstring;
  event_attempt : option Z;
  event_replayed : bool
}.

(** An argument of [console.error]. *)
Inductive LogArg : Type :=
  | LogString (s : jsstring)
  | LogThrown (e : Thrown).

(** What a run does to the outside, in order. *)
Inductive Effect : Type :=
  | HandlerCalled (event : HookRelayEvent)
  | Fetched (call : FetchCall)
  | ConsoleError (args : list LogArg).

(** The surroundings of a run: [process.env], the successive readings of
    [Date.now()] in milliseconds, and what the network answers to a
    [fetch] (a response, or a rejection). *)
Record World : Type := {
  process_env : gmap string jsstring;
  clock : nat → Z;
  network : FetchCall → Result FetchResponse
}.

(** The state threaded through a run: how many times the clock was read,
    and the effects so far, oldest first. *)
Record State : Type := {
  ticks : nat;
  trace : list Effect
}.

Definition initial : State := {| ticks := 0; trace := [] |}.

Definition M (A : Type) : Type := World → State → Result A * State.

Definition ret {A : Type} (a : A) : M A := λ _ st, (Ok a, st).

Definition bind {A B : Type} (m : M A) (f : A → M B) : M B :=
  λ w st,
    match m w st with
    | (Ok a, st') => f a w st'
    | (Throw e, st') => (Throw e, st')
    end.

Notation "x <- m ;; k" := (bind m (λ x, k))
  (at level 100, m at next level, right associativity).

Definition throw {A : Type} (e : Thrown) : M A := λ _ st, (Throw e, st).

(** [try { body } catch (error) { handler error }] *)
Definition try_catch {A : Type} (body : M A) (handler : Thrown → M A) : M A :=
  λ w st,
    match body w st with
    | (Ok a, st') => (Ok a, st')
    | (Throw e, st') => handler e w st'
    end.

(** [await] of a promise that has settled. *)
Definition await {A : Type} (r : Result A) : M A := λ _ st, (r, st).

Definition emit (e : Effect) : M unit :=
  λ _ st, (Ok tt, {| ticks := ticks st; trace := trace st ++ [e] |}).

(** [process.env[name]] *)
Definition getenv (name : string) : M (option jsstring) :=
  λ w st, (Ok (process_env w !! name), st).

(** [Date.now()] *)
Definition Date_now : M Z :=
  λ w st, (Ok (clock w (ticks st)), {| ticks := S (ticks st); trace := trace st |}).

(** [fetch(url, init)] *)
Definition fetch (call : FetchCall) : M FetchResponse :=
  _ <- emit (Fetched call) ;; λ w st, (network w call, st).

(** [console.error(...args)] *)
Definition console_error (args : list LogArg) : M unit := emit (ConsoleError args).

(** ** services/crypto.ts and services/signature.ts: verification *)

Section Verification.
Context {host : Platform}.

Definition crypto_verifySignature
    (timestamp payload signatureHeader secret : jsstring) : M bool :=
  millis <- Date_now ;;
  let now := millis / 1000 in
  let ts := parseInt timestamp in
  match ts with
  | None => ret false
  | Some ts =>
      if Z.abs (now - ts) >? TIMESTAMP_TOLERANCE_SECONDS then ret false
      else if negb (startsWith signatureHeader (SIGNATURE_VERSION ++ js "=")) then ret false
      else
        let expectedSignature := slice signatureHeader (length SIGNATURE_VERSION + 1) in
        computed <- await (signPayload ts payload secret) ;;
        let computedSignature := slice computed (length SIGNATURE_VERSION + 1) in
        ret (timingSafeEqual computedSignature expectedSignature)
  end.

(** [services/signature.ts] delegates to [services/crypto.ts]. *)
Definition verifySignature
    (timestamp payload signatureHeader secret : jsstring) : M bool :=
  crypto_verifySignature timestamp payload signatureHeader secret.
End Verification.

(** ** constants/headers.ts *)

Definition HEADERS_EVENT_ID : string := "X-HookRelay-Event-Id".
Definition HEADERS_PROVIDER : string := "X-HookRelay-Provider".
Definition HEADERS_PROVIDER_EVENT_ID : string := "X-HookRelay-Provider-Event-Id".
Definition HEADERS_ATTEMPT : string := "X-HookRelay-Attempt".
Definition HEADERS_REPLAYED : string := "X-HookRelay-Replayed".
Definition HEADERS_TIMESTAMP : string := "X-HookRelay-Timestamp".
Definition HEADERS_SIGNATURE : string := "X-HookRelay-Signature".
Definition HEADERS_EVENT_TYPE : string := "X-HookRelay-Event-Type".

(** ** Requests and responses *)

Definition ascii_lower (a : ascii) : ascii :=
  let n := N_of_ascii a in
  if ((65 <=? n) && (n <=? 90))%N then ascii_of_N (n + 32) else a.

Fixpoint lowercase (s : string) : string :=
  match s with
  | EmptyString => EmptyString
  | String a rest => String (ascii_lower a) (lowercase rest)
  end.

(** A request: its header list, keyed by lower-cased name as the Fetch
    standard stores it, and its body decoded as text. *)
Record Request : Type := {
  headers : gmap string jsstring;
  body : jsstring
}.

(** [headers.get(name)]; [None] is [null]. *)
Definition Headers_get (h : gmap string jsstring) (name : string) : option jsstring :=
  h !! lowercase name.

(** [await request.text()] *)
Definition Request_text (request : Request) : M jsstring := ret (body request).

Record Response : Type := {
  res_status : Z;
  res_body : JSValue
}.

(** [Response.json(data, { status })] *)
Definition Response_json (data : JSValue) (status : Z) : Response :=
  {| res_status := status; res_body := data |}.

(** A string that is neither [null], [undefined] nor empty. *)
Definition truthy (o : option jsstring) : option jsstring :=
  match o with
  | Some (c :: s) => Some (c :: s)
  | _ => None
  end.

(** ** services/outcome.ts *)

Definition DEFAULT_API_URL : jsstring := js "https://api.hookrelay.io".

Section Outcome.
Context {host : Platform}.

Definition reportOutcome (eventId : jsstring) (outcome : OutcomePayload)
    (secret : jsstring) (apiUrl : option jsstring) : M bool :=
  envUrl <- getenv "HOOKRELAY_API_URL" ;;
  let baseUrl := default (default DEFAULT_API_URL envUrl) apiUrl in
  let url := baseUrl ++ js "/v1/events/" ++ eventId ++ js "/outcome" in
  try_catch
    (response <- fetch {| url := url;
                          method := js "POST";
                          fetch_headers :=
                            [("Content-Type", js "application/json");
                             ("Authorization", js "Bearer " ++ secret)];
                          fetch_body := JSON_stringify outcome |} ;;
     if negb (ok response) then
       _ <- console_error
              [LogString (js "[HookRelay] Failed to report outcome: "
                          ++ String_of_number (response_status response)
                          ++ js " " ++ statusText response)] ;;
       ret false
     else ret true)
    (λ error,
       _ <- console_error
              [LogString (js "[HookRelay] Failed to report outcome:"); LogThrown error] ;;
       ret false).
End Outcome.

(** ** types.ts: options and handlers *)

Record HookRelayOptions : Type := {
  provider : jsstring;
  timeoutMs : option Z;
  enforceIdempotency : option bool;
  allowReplay : option bool
}.

(** A user callback, awaited: it completes, or it throws or rejects. *)
Definition HookRelayHandler : Type := HookRelayEvent → Result unit.

(** ** withHookRelay.ts *)

Section WithHookRelay.
Context {host : Platform}.

Definition HookRelayConfigError (message : jsstring) : Thrown :=
  ErrorInstance (js "HookRelayConfigError") message (Error_stack message).

Definition HookRelaySignatureError (message : jsstring) : Thrown :=
  ErrorInstance (js "HookRelaySignatureError") message (Error_stack message).

Definition extractProviderEventId (provider : jsstring) (payload : JSValue) : JSValue :=
  if falsy payload || negb (typeof_object payload) then VUndefined
  else if bool_decide (provider = js "stripe") then get_property payload (js "id")
  else VUndefined.

(** [a ?? b] *)
Definition nullish (a b : JSValue) : JSValue :=
  match a with
  | VUndefined | VNull => b
  | _ => a
  end.

(** [await handler(event)] *)
Definition invoke (handler : HookRelayHandler) (event : HookRelayEvent) : M unit :=
  _ <- emit (HandlerCalled event) ;; await (handler event).

Definition hookRelayHandler (handler : HookRelayHandler) (options : HookRelayOptions)
    (request : Request) : M Response :=
  secret <- getenv "HOOKRELAY_SECRET" ;;
  match truthy secret with
  | None => (* if (!secret) *)
      throw (HookRelayConfigError
               (js "HOOKRELAY_SECRET environment variable is not configured"))
  | Some secret =>
      let eventId := Headers_get (headers request) HEADERS_EVENT_ID in
      let provider_h := Headers_get (headers request) HEADERS_PROVIDER in
      let timestamp := Headers_get (headers request) HEADERS_TIMESTAMP in
      let signature := Headers_get (headers request) HEADERS_SIGNATURE in
      let attemptStr := Headers_get (headers request) HEADERS_ATTEMPT in
      let replayedStr := Headers_get (headers request) HEADERS_REPLAYED in
      (* Validate required headers: the last branch is
         [if (!eventId || !signature || !timestamp)] *)
      match truthy eventId, truthy signature, truthy timestamp with
      | Some eventId, Some signature, Some timestamp =>
          (* Verify this is from the expected provider *)
          if negb (bool_decide (provider_h = Some (provider options))) then
            ret (Response_json
                   (VObject [(js "error",
                              VString (js "Expected provider '" ++ provider options
                                       ++ js "', got '"
                                       ++ default (js "unknown") provider_h ++ js "'"))])
                   400)
          else
            (* Read raw body for signature verification *)
            rawBody <- Request_text request ;;
            isValid <- verifySignature timestamp rawBody signature secret ;;
            if negb isValid then
              ret (Response_json (VObject [(js "error", VString (js "Invalid signature"))]) 401)
            else
              (* Parse payload *)
              match JSON_parse rawBody with
              | None =>
                  ret (Response_json
                         (VObject [(js "error", VString (js "Invalid JSON payload"))]) 400)
              | Some payload =>
                  let attempt :=
                    match truthy attemptStr with
                    | Some a => parseInt a
                    | None => Some 1
                    end in
                  let replayed := bool_decide (replayedStr = Some (js "true")) in
                  (* Check replay policy *)
                  if replayed && bool_decide (allowReplay options = Some false) then
                    ret (Response_json
                           (VObject [(js "error",
                                      VString (js "Replayed events are not allowed"))]) 400)
                  else
                    let providerEventId := extractProviderEventId (provider options) payload in
                    received <- Date_now ;;
                    let event :=
                      {| event_id := eventId;
                         event_provider := provider options;
                         event_providerEventId := nullish providerEventId (VString eventId);
                         event_payload := payload;
                         event_receivedAt := Date_toISOString received;
                         event_attempt := attempt;
                         event_replayed := replayed |} in
                    startTime <- Date_now ;;
                    try_catch
                      (_ <- invoke handler event ;;
                       finished <- Date_now ;;
                       let durationMs := finished - startTime in
                       reported <- reportOutcome eventId
                                     {| status := success; durationMs := durationMs;
                                        error := None |}
                                     secret None ;;
                       _ <- (if negb reported then
                               console_error
                                 [LogString
                                    (js "[HookRelay] Failed to report success outcome for event "
                                     ++ eventId)]
                             else ret tt) ;;
                       ret (Response_json
                              (VObject [(js "accepted", VBool true);
                                        (js "eventId", VString eventId)]) 202))
                      (λ error,
                         finished <- Date_now ;;
                         let durationMs := finished - startTime in
                         (* error instanceof Error ? {name, message, stack}
                            : {name: 'Error', message: String(error)} *)
                         errorInfo <-
                           match error with
                           | ErrorInstance name message stack =>
                               ret {| error_name := name; error_message := message;
                                      error_stack := stack |}
                           | ThrownValue v =>
                               ret {| error_name := js "Error";
                                      error_message := String_of_value v;
                                      error_stack := None |}
                           | Unconvertible raised => throw raised
                           end ;;
                         reported <- reportOutcome eventId
                                       {| status := failure; durationMs := durationMs;
                                          error := Some errorInfo |}
                                       secret None ;;
                         _ <- (if negb reported then
                                 console_error
                                   [LogString
                                      (js "[HookRelay] Failed to report failure outcome for event "
                                       ++ eventId)]
                               else ret tt) ;;
                         ret (Response_json
                                (VObject [(js "error", VString (error_message errorInfo));
                                          (js "eventId", VString eventId)]) 500))
              end
      | _, _, _ =>
          ret (Response_json
                 (VObject [(js "error", VString (js "Missing required Hook Relay headers"))])
                 400)
      end
  end.

(** [withHookRelay(handler, options)] returns the request handler. *)
Definition withHookRelay (handler : HookRelayHandler) (options : HookRelayOptions)
    : Request → M Response :=
  hookRelayHandler handler options.
End WithHookRelay.

(** ** Vocabulary of the statements *)

(** The state after one more reading of the clock. *)
Definition tick (st : State) : State := {| ticks := S (ticks st); trace := trace st |}.

(** The state after further effects. *)
Definition after (st : State) (effects : list Effect) : State :=
  {| ticks := ticks st; trace := trace st ++ effects |}.

(** The time in seconds [verifySignature] reads when run in state [st]. *)
Definition now (w : World) (st : State) : Z := clock w (ticks st) / 1000.

Definition byte_value (b : Byte.byte) : Z := Z.of_N (Byte.to_N b).

(** The [fetch] calls among some effects, in order. *)
Definition fetches (effects : list Effect) : list FetchCall :=
  omap (λ e, match e with Fetched call => Some call | _ => None end) effects.

(** The events the user callback was invoked with, in order. *)
Definition invocations (effects : list Effect) : list HookRelayEvent :=
  omap (λ e, match e with HandlerCalled event => Some event | _ => None end) effects.

(** Whether the network accepts a call: a response whose [ok] is set. *)
Definition accepted (w : World) (call : FetchCall) : bool :=
  match network w call with
  | Ok response => ok response
  | Throw _ => false
  end.

(** A handler is configured when the environment holds a non-empty
    [HOOKRELAY_SECRET]. *)
Definition configured (w : World) (secret : jsstring) : Prop :=
  truthy (process_env w !! "HOOKRELAY_SECRET") = Some secret.

(** A request passes the header checks of a handler when its event id,
    signature and timestamp headers are present and non-empty and its
    provider header is the configured provider. *)
Definition passes_header_checks (options : HookRelayOptions) (request : Request)
    (eventId signature timestamp : jsstring) : Prop :=
  truthy (Headers_get (headers request) HEADERS_EVENT_ID) = Some eventId
  ∧ truthy (Headers_get (headers request) HEADERS_SIGNATURE) = Some signature
  ∧ truthy (Headers_get (headers request) HEADERS_TIMESTAMP) = Some timestamp
  ∧ Headers_get (headers request) HEADERS_PROVIDER = Some (provider options).

(** The replay gate closes on a request. *)
Definition replay_refused (options : HookRelayOptions) (request : Request) : Prop :=
  Headers_get (headers request) HEADERS_REPLAYED = Some (js "true")
  ∧ allowReplay options = Some false.

(** The responses of the wrapper. *)
Definition error_response (message : string) (status : Z) : Response :=
  Response_json (VObject [(js "error", VString (js message))]) status.

Definition accepted_response (eventId : jsstring) : Response :=
  Response_json (VObject [(js "accepted", VBool true); (js "eventId", VString eventId)]) 202.

Definition failure_response (message eventId : jsstring) : Response :=
  Response_json (VObject [(js "error", VString message); (js "eventId", VString eventId)]) 500.

(** What the [catch] block of the wrapper records of a thrown value, when
    it can: the conversion of an [Unconvertible] value throws instead. *)
Definition errorInfo_of (e : Thrown) : Result ErrorInfo :=
  match e with
  | ErrorInstance name message stack =>
      Ok {| error_name := name; error_message := message; error_stack := stack |}
  | ThrownValue v =>
      Ok {| error_name := js "Error"; error_message := String_of_value v;
            error_stack := None |}
  | Unconvertible raised => Throw raised
  end.

(** What the wrapper makes of a completion of the callback: nothing to
    record after a success, an error record after a failure, or an error of
    its own when the thrown value cannot be recorded. *)
Definition recorded (completion : Result unit) : Result (option ErrorInfo) :=
  match completion with
  | Ok _ => Ok None
  | Throw e =>
      match errorInfo_of e with
      | Ok info => Ok (Some info)
      | Throw raised => Throw raised
      end
  end.

(** The outcome the wrapper reports: a success, or a failure with its
    error record. *)
Definition outcome_of (error : option ErrorInfo) (duration : Z) : OutcomePayload :=
  {| status := match error with None => success | Some _ => failure end;
     durationMs := duration;
     error := error |}.

(** The response the wrapper gives after its report. *)
Definition response_of (error : option ErrorInfo) (eventId : jsstring) : Response :=
  match error with
  | None => accepted_response eventId
  | Some info => failure_response (error_message info) eventId
  end.

(** What the wrapper logs when a report was not accepted. *)
Definition report_failure_log (error : option ErrorInfo) (eventId : jsstring) : Effect :=
  ConsoleError
    [LogString
       (js (match error with
            | None => "[HookRelay] Failed to report success outcome for event "
            | Some _ => "[HookRelay] Failed to report failure outcome for event "
            end) ++ eventId)].

Section Vocabulary.
Context {host : Platform}.

(** The signature a sender would compute over a literal text in place of
    the rendering of a number: what [signPayload] does, with the text
    [text] where [signPayload] has [String(timestamp)]. The source has no
    such function; it serves to state what [verifySignature] rejects. *)
Definition signText (text payload secret : jsstring) : Result jsstring :=
  match subtle_HMAC_SHA256 (TextEncoder_encode secret)
          (TextEncoder_encode (text ++ js "." ++ payload)) with
  | Throw e => Throw e
  | Ok signature => Ok (SIGNATURE_VERSION ++ js "=" ++ hexDigest signature)
  end.

(** The event a request is delivered as, received at a given instant. *)
Definition delivered_event (options : HookRelayOptions) (request : Request)
    (eventId : jsstring) (payload : JSValue) (received : Z) : HookRelayEvent :=
  {| event_id := eventId;
     event_provider := provider options;
     event_providerEventId :=
       nullish (extractProviderEventId (provider options) payload) (VString eventId);
     event_payload := payload;
     event_receivedAt := Date_toISOString received;
     event_attempt :=
       match truthy (Headers_get (headers request) HEADERS_ATTEMPT) with
       | Some a => parseInt a
       | None => Some 1
       end;
     event_replayed :=
       bool_decide (Headers_get (headers request) HEADERS_REPLAYED = Some (js "true")) |}.
End Vocabulary.

#[export] Instance byte_eq_decision : EqDecision Byte.byte.
Proof.
  intros x y. destruct (Byte.eqb x y) eqn:E; [left; by apply Byte.byte_dec_bl|right].
  intros ->. by rewrite Byte.byte_dec_lb in E.
Defined.

#[export] Instance replay_refused_dec options request :
  Decision (replay_refused options request).
Proof. unfold replay_refused. apply _. Defined.

(** A run from the initial state: its result and its final state. *)
Definition run {A : Type} (m : M A) (w : World) : Result A * State := m w initial.

(** The effects of a run, in order. *)
Definition effects {A : Type} (m : M A) (w : World) : list Effect := trace (snd (run m w)).

(** Two final states are equal once their traces are reassociated. *)
Ltac state_eq :=
  unfold after, tick, response_of, accepted_response, failure_response;
  cbn [ticks trace error_message]; rewrite <- ?app_assoc; reflexivity.


Section Shapes.
Context {host : Platform}.
Variables (w : World) (handler : HookRelayHandler) (options : HookRelayOptions)
          (request : Request).

(** The ways a run of the wrapper can end: its result and final state,
    with what decides each. *)
Inductive Shape : Result Response * State → Prop :=
  | shape_unconfigured :
      truthy (process_env w !! "HOOKRELAY_SECRET") = None →
      Shape (Throw (HookRelayConfigError
                      (js "HOOKRELAY_SECRET environment variable is not configured")),
             initial)
  | shape_missing secret :
      configured w secret →
      truthy (Headers_get (headers request) HEADERS_EVENT_ID) = None
      ∨ truthy (Headers_get (headers request) HEADERS_SIGNATURE) = None
      ∨ truthy (Headers_get (headers request) HEADERS_TIMESTAMP) = None →
      Shape (Ok (error_response "Missing required Hook Relay headers" 400), initial)
  | shape_provider secret eventId signature timestamp :
      configured w secret →
      truthy (Headers_get (headers request) HEADERS_EVENT_ID) = Some eventId →
      truthy (Headers_get (headers request) HEADERS_SIGNATURE) = Some signature →
      truthy (Headers_get (headers request) HEADERS_TIMESTAMP) = Some timestamp →
      Headers_get (headers request) HEADERS_PROVIDER ≠ Some (provider options) →
      Shape (Ok (Response_json
                   (VObject [(js "error",
                              VString (js "Expected provider '" ++ provider options
                                       ++ js "', got '"
                                       ++ default (js "unknown")
                                            (Headers_get (headers request) HEADERS_PROVIDER)
                                       ++ js "'"))]) 400),
             initial)
  | shape_signature secret eventId signature timestamp :
      configured w secret →
      passes_header_checks options request eventId signature timestamp →
      verifySignature timestamp (body request) signature secret w initial
      = (Ok false, tick initial) →
      Shape (Ok (error_response "Invalid signature" 401), tick initial)
  | shape_signing_error secret eventId signature timestamp e :
      configured w secret →
      passes_header_checks options request eventId signature timestamp →
      verifySignature timestamp (body request) signature secret w initial
      = (Throw e, tick initial) →
      Shape (Throw e, tick initial)
  | shape_json secret eventId signature timestamp :
      configured w secret →
      passes_header_checks options request eventId signature timestamp →
      verifySignature timestamp (body request) signature secret w initial
      = (Ok true, tick initial) →
      JSON_parse (body request) = None →
      Shape (Ok (error_response "Invalid JSON payload" 400), tick initial)
  | shape_replay secret eventId signature timestamp payload :
      configured w secret →
      passes_header_checks options request eventId signature timestamp →
      verifySignature timestamp (body request) signature secret w initial
      = (Ok true, tick initial) →
      JSON_parse (body request) = Some payload →
      replay_refused options request →
      Shape (Ok (error_response "Replayed events are not allowed" 400), tick initial)
  | shape_escaped secret eventId signature timestamp payload raised :
      configured w secret →
      passes_header_checks options request eventId signature timestamp →
      verifySignature timestamp (body request) signature secret w initial
      = (Ok true, tick initial) →
      JSON_parse (body request) = Some payload →
      ¬ replay_refused options request →
      let event := delivered_event options request eventId payload (clock w 1) in
      recorded (handler event) = Throw raised →
      Shape (Throw raised, {| ticks := 4; trace := [HandlerCalled event] |})
  | shape_delivered secret eventId signature timestamp payload error call logs :
      configured w secret →
      passes_header_checks options request eventId signature timestamp →
      verifySignature timestamp (body request) signature secret w initial
      = (Ok true, tick initial) →
      JSON_parse (body request) = Some payload →
      ¬ replay_refused options request →
      let event := delivered_event options request eventId payload (clock w 1) in
      recorded (handler event) = Ok error →
      url call = default DEFAULT_API_URL (process_env w !! "HOOKRELAY_API_URL")
                 ++ js "/v1/events/" ++ eventId ++ js "/outcome" →
      method call = js "POST" →
      fetch_headers call = [("Content-Type", js "application/json");
                            ("Authorization", js "Bearer " ++ secret)] →
      fetch_body call = JSON_stringify (outcome_of error (clock w 3 - clock w 2)) →
      (if accepted w call then logs = []
       else ∃ args, logs = [ConsoleError args; report_failure_log error eventId]) →
      Shape (Ok (response_of error eventId),
             {| ticks := 4; trace := HandlerCalled event :: Fetched call :: logs |}).
End Shapes.

(** ** A reference platform

    A concrete host on which the statements are exercised: UTF-8 encoding
    as [TextEncoder] does it, HMAC with SHA-256 (FIPS 180-4, RFC 2104) with
    the empty key refused as Web Crypto's [importKey] refuses it, a JSON
    reader (integers for numbers) and writer, and a date formatter; new
    errors carry no stack. *)
Module Reference.

(** *** TextEncoder *)

Definition isHighSurrogate (c : Z) : bool := (55296 <=? c) && (c <=? 56319).
Definition isLowSurrogate (c : Z) : bool := (56320 <=? c) && (c <=? 57343).

(** The code points of a string; a lone surrogate reads as U+FFFD. *)
Fixpoint codePoints (s : jsstring) : list Z :=
  match s with
  | [] => []
  | c :: rest =>
      if isHighSurrogate c then
        match rest with
        | d :: rest' =>
            if isLowSurrogate d
            then (65536 + (c - 55296) * 1024 + (d - 56320)) :: codePoints rest'
            else 65533 :: codePoints rest
        | [] => [65533]
        end
      else if isLowSurrogate c then 65533 :: codePoints rest
      else c :: codePoints rest
  end.

Definition utf8 (cp : Z) : list Z :=
  if cp <? 128 then [cp]
  else if cp <? 2048 then [192 + cp / 64; 128 + cp mod 64]
  else if cp <? 65536 then [224 + cp / 4096; 128 + (cp / 64) mod 64; 128 + cp mod 64]
  else [240 + cp / 262144; 128 + (cp / 4096) mod 64; 128 + (cp / 64) mod 64; 128 + cp mod 64].

Definition byte_of_Z (z : Z) : Byte.byte := default Byte.x00 (Byte.of_N (Z.to_N z)).

Definition encode (s : jsstring) : list Byte.byte :=
  byte_of_Z <$> (codePoints s ≫= utf8).

(** *** SHA-256 on 32-bit words *)

Definition mask32 (x : Z) : Z := Z.land x 4294967295.
Definition add32 (x y : Z) : Z := mask32 (x + y).
Definition rotr (n x : Z) : Z := Z.lor (Z.shiftr x n) (mask32 (Z.shiftl x (32 - n))).
Definition not32 (x : Z) : Z := 4294967295 - x.

Definition choose (x y z : Z) : Z := Z.lxor (Z.land x y) (Z.land (not32 x) z).
Definition majority (x y z : Z) : Z :=
  Z.lxor (Z.lxor (Z.land x y) (Z.land x z)) (Z.land y z).
Definition big_sigma0 (x : Z) : Z := Z.lxor (Z.lxor (rotr 2 x) (rotr 13 x)) (rotr 22 x).
Definition big_sigma1 (x : Z) : Z := Z.lxor (Z.lxor (rotr 6 x) (rotr 11 x)) (rotr 25 x).
Definition small_sigma0 (x : Z) : Z := Z.lxor (Z.lxor (rotr 7 x) (rotr 18 x)) (Z.shiftr x 3).
Definition small_sigma1 (x : Z) : Z := Z.lxor (Z.lxor (rotr 17 x) (rotr 19 x)) (Z.shiftr x 10).

Definition round_constants : list Z :=
  [1116352408; 1899447441; 3049323471; 3921009573; 961987163; 1508970993;
   2453635748; 2870763221; 3624381080; 310598401; 607225278; 1426881987;
   1925078388; 2162078206; 2614888103; 3248222580; 3835390401; 4022224774;
   264347078; 604807628; 770255983; 1249150122; 1555081692; 1996064986;
   2554220882; 2821834349; 2952996808; 3210313671; 3336571891; 3584528711;
   113926993; 338241895; 666307205; 773529912; 1294757372; 1396182291;
   1695183700; 1986661051; 2177026350; 2456956037; 2730485921; 2820302411;
   3259730800; 3345764771; 3516065817; 3600352804; 4094571909; 275423344;
   430227734; 506948616; 659060556; 883997877; 958139571; 1322822218;
   1537002063; 1747873779; 1955562222; 2024104815; 2227730452; 2361852424;
   2428436474; 2756734187; 3204031479; 3329325298].

Definition initial_hash : list Z :=
  [1779033703; 3144134277; 1013904242; 2773480762;
   1359893119; 2600822924; 528734635; 1541459225].

(** The message with its padding: a one bit, zeros up to 56 modulo 64
    bytes, and the length in bits on eight bytes. *)
Definition pad (message : list Z) : list Z :=
  let len := Z.of_nat (length message) in
  let zeros := Z.to_nat ((55 - len) mod 64) in
  let bits := 8 * len in
  message ++ [128] ++ replicate zeros 0
    ++ ((λ i, (bits / 256 ^ Z.of_nat i) mod 256) <$> [7; 6; 5; 4; 3; 2; 1; 0]%nat).

Fixpoint words (bytes : list Z) : list Z :=
  match bytes with
  | a :: b :: c :: d :: rest => (((a * 256 + b) * 256 + c) * 256 + d) :: words rest
  | _ => []
  end.

Fixpoint blocks (count : nat) (ws : list Z) : list (list Z) :=
  match count with
  | O => []
  | S count' => take 16 ws :: blocks count' (drop 16 ws)
  end.

(** The message schedule, latest word first. *)
Fixpoint schedule (steps : nat) (recent : list Z) : list Z :=
  match steps with
  | O => recent
  | S steps' =>
      let w := add32 (add32 (small_sigma1 (nth 1 recent 0)) (nth 6 recent 0))
                     (add32 (small_sigma0 (nth 14 recent 0)) (nth 15 recent 0)) in
      schedule steps' (w :: recent)
  end.

Definition round (v : list Z) (kw : Z * Z) : list Z :=
  match v with
  | [a; b; c; d; e; f; g; h] =>
      let t1 := add32 (add32 (add32 h (big_sigma1 e)) (add32 (choose e f g) (fst kw))) (snd kw) in
      let t2 := add32 (big_sigma0 a) (majority a b c) in
      [add32 t1 t2; a; b; c; add32 d t1; e; f; g]
  | _ => v
  end.

Definition compress (hash block : list Z) : list Z :=
  let w := rev (schedule 48 (rev block)) in
  zip_with add32 hash (fold_left round (zip round_constants w) hash).

Definition word_bytes (x : Z) : list Z :=
  [x / 16777216; (x / 65536) mod 256; (x / 256) mod 256; x mod 256].

Definition sha256 (message : list Z) : list Z :=
  let ws := words (pad message) in
  fold_left compress (blocks (length ws / 16) ws) initial_hash ≫= word_bytes.

(** *** HMAC *)

Definition hmac_sha256 (key message : list Z) : list Z :=
  let key := if (64 <? length key)%nat then sha256 key else key in
  let key := key ++ replicate (64 - length key) 0 in
  sha256 ((Z.lxor 92 <$> key) ++ sha256 ((Z.lxor 54 <$> key) ++ message)).

Definition sign_HMAC_SHA256 (key message : list Byte.byte) : Result (list Byte.byte) :=
  match key with
  | [] => Throw (ErrorInstance (js "DataError") (js "Zero-length key is not supported") None)
  | _ => Ok (byte_of_Z <$> hmac_sha256 (byte_value <$> key) (byte_value <$> message))
  end.

(** *** JSON *)

Definition isJSONSpace (c : Z) : bool := (c =? 32) || (c =? 9) || (c =? 10) || (c =? 13).

Fixpoint skip (s : jsstring) : jsstring :=
  match s with
  | c :: rest => if isJSONSpace c then skip rest else s
  | [] => []
  end.

Definition hexValue (c : Z) : option Z :=
  if (48 <=? c) && (c <=? 57) then Some (c - 48)
  else if (97 <=? c) && (c <=? 102) then Some (c - 87)
  else if (65 <=? c) && (c <=? 70) then Some (c - 55)
  else None.

Definition escaped (c : Z) : option Z :=
  if (c =? 34) || (c =? 92) || (c =? 47) then Some c
  else if c =? 98 then Some 8
  else if c =? 102 then Some 12
  else if c =? 110 then Some 10
  else if c =? 114 then Some 13
  else if c =? 116 then Some 9
  else None.

(** The characters of a string literal after its opening quote, and what
    follows its closing quote. *)
Fixpoint read_string (s acc : jsstring) : option (jsstring * jsstring) :=
  match s with
  | [] => None
  | c :: rest =>
      if c =? 34 then Some (rev acc, rest)
      else if c <? 32 then None
      else if c =? 92 then
        match rest with
        | e :: rest' =>
            if e =? 117 then
              match rest' with
              | h3 :: h2 :: h1 :: h0 :: rest'' =>
                  match hexValue h3, hexValue h2, hexValue h1, hexValue h0 with
                  | Some a, Some b, Some c', Some d =>
                      read_string rest'' ((((a * 16 + b) * 16 + c') * 16 + d) :: acc)
                  | _, _, _, _ => None
                  end
              | _ => None
              end
            else
              match escaped e with
              | Some x => read_string rest' (x :: acc)
              | None => None
              end
        | [] => None
        end
      else read_string rest (c :: acc)
  end.

(** An integer literal; a fraction or an exponent is outside the numbers
    of the embedding and is not read. *)
Definition read_number (s : jsstring) : option (JSValue * jsstring) :=
  let '(sign, s) :=
    match s with
    | c :: rest => if c =? 45 then (-1, rest) else (1, s)
    | [] => (1, s)
    end in
  let digits := digitPrefix s in
  let rest := drop (length digits) s in
  let fraction :=
    match rest with
    | c :: _ => (c =? 46) || (c =? 101) || (c =? 69)
    | [] => false
    end in
  match digits with
  | [] => None
  | d :: more =>
      if fraction || ((d =? 48) && negb (bool_decide (more = []))) then None
      else Some (VNumber (sign * mathInt digits), rest)
  end.

Fixpoint set_field (key : jsstring) (v : JSValue) (fields : list (jsstring * JSValue))
    : list (jsstring * JSValue) :=
  match fields with
  | [] => [(key, v)]
  | (k, x) :: rest =>
      if bool_decide (k = key) then (k, v) :: rest else (k, x) :: set_field key v rest
  end.

Fixpoint read_value (fuel : nat) (s : jsstring) : option (JSValue * jsstring) :=
  match fuel with
  | O => None
  | S fuel' =>
      match skip s with
      | [] => None
      | c :: rest =>
          if c =? 91 then
            match skip rest with
            | d :: rest' =>
                if d =? 93 then Some (VArray [], rest') else read_elements fuel' rest []
            | [] => None
            end
          else if c =? 123 then
            match skip rest with
            | d :: rest' =>
                if d =? 125 then Some (VObject [], rest') else read_members fuel' rest []
            | [] => None
            end
          else if c =? 34 then
            match read_string rest [] with
            | Some (str, rest') => Some (VString str, rest')
            | None => None
            end
          else if startsWith (c :: rest) (js "null") then Some (VNull, drop 4 (c :: rest))
          else if startsWith (c :: rest) (js "true") then Some (VBool true, drop 4 (c :: rest))
          else if startsWith (c :: rest) (js "false") then Some (VBool false, drop 5 (c :: rest))
          else read_number (c :: rest)
      end
  end
with read_elements (fuel : nat) (s : jsstring) (acc : list JSValue)
    : option (JSValue * jsstring) :=
  match fuel with
  | O => None
  | S fuel' =>
      match read_value fuel' s with
      | Some (v, rest) =>
          match skip rest with
          | c :: rest' =>
              if c =? 44 then read_elements fuel' rest' (v :: acc)
              else if c =? 93 then Some (VArray (rev (v :: acc)), rest')
              else None
          | [] => None
          end
      | None => None
      end
  end
with read_members (fuel : nat) (s : jsstring) (acc : list (jsstring * JSValue))
    : option (JSValue * jsstring) :=
  match fuel with
  | O => None
  | S fuel' =>
      match skip s with
      | q :: rest =>
          if q =? 34 then
            match read_string rest [] with
            | Some (key, rest) =>
                match skip rest with
                | colon :: rest =>
                    if colon =? 58 then
                      match read_value fuel' rest with
                      | Some (v, rest) =>
                          match skip rest with
                          | c :: rest' =>
                              if c =? 44 then read_members fuel' rest' (set_field key v acc)
                              else if c =? 125 then Some (VObject (set_field key v acc), rest')
                              else None
                          | [] => None
                          end
                      | None => None
                      end
                    else None
                | [] => None
                end
            | None => None
            end
          else None
      | [] => None
      end
  end.

(** The reader of the reference platform. It reads what the examples need
    and is no model of [JSON.parse] at large: a number with a fraction or
    an exponent is refused, and the members of an object are kept in the
    order of the text. No statement about the wrapper depends on it: they
    hold for the [JSON_parse] of every platform. *)
Definition parse (text : jsstring) : option JSValue :=
  match read_value (2 * length text + 2) text with
  | Some (v, rest) => match skip rest with [] => Some v | _ => None end
  | None => None
  end.

(** A quoted string as [JSON.stringify] writes it. *)
Fixpoint quote_chars (s : jsstring) : jsstring :=
  match s with
  | [] => []
  | c :: rest =>
      let pair :=
        match rest with
        | d :: _ => isHighSurrogate c && isLowSurrogate d
        | [] => false
        end in
      if pair then
        match rest with
        | d :: rest' => c :: d :: quote_chars rest'
        | [] => [c]
        end
      else
        (if c =? 8 then js "\b"
         else if c =? 9 then js "\t"
         else if c =? 10 then js "\n"
         else if c =? 12 then js "\f"
         else if c =? 13 then js "\r"
         else if c =? 34 then [92; 34]
         else if c =? 92 then [92; 92]
         else if (c <? 32) || isHighSurrogate c || isLowSurrogate c
         then js "\u" ++ padStart (Number_toString c 16) 4 48
         else [c]) ++ quote_chars rest
  end.

Definition quote (s : jsstring) : jsstring := [34] ++ quote_chars s ++ [34].

Definition stringify (outcome : OutcomePayload) : jsstring :=
  js "{" ++ quote (js "status") ++ js ":"
  ++ quote (match status outcome with success => js "success" | failure => js "failure" end)
  ++ js "," ++ quote (js "durationMs") ++ js ":" ++ String_of_number (durationMs outcome)
  ++ match error outcome with
     | None => []
     | Some info =>
         js "," ++ quote (js "error") ++ js ":{"
         ++ quote (js "name") ++ js ":" ++ quote (error_name info)
         ++ js "," ++ quote (js "message") ++ js ":" ++ quote (error_message info)
         ++ match error_stack info with
            | None => []
            | Some stack => js "," ++ quote (js "stack") ++ js ":" ++ quote stack
            end
         ++ js "}"
     end
  ++ js "}".

(** *** Dates *)

Definition pad_number (n : Z) (width : nat) : jsstring :=
  padStart (Number_toString n 10) width 48.

(** [toISOString] of an instant in milliseconds since the epoch. *)
Definition toISOString (millis : Z) : jsstring :=
  let days := millis / 86400000 in
  let rest := millis mod 86400000 in
  let z := days + 719468 in
  let era := z / 146097 in
  let doe := z mod 146097 in
  let yoe := (doe - doe / 1460 + doe / 36524 - doe / 146096) / 365 in
  let doy := doe - (365 * yoe + yoe / 4 - yoe / 100) in
  let mp := (5 * doy + 2) / 153 in
  let day := doy - (153 * mp + 2) / 5 + 1 in
  let month := if mp <? 10 then mp + 3 else mp - 9 in
  let year := yoe + era * 400 + (if month <=? 2 then 1 else 0) in
  (if (0 <=? year) && (year <=? 9999) then pad_number year 4
   else (if year <? 0 then js "-" else js "+") ++ pad_number (Z.abs year) 6)
  ++ js "-" ++ pad_number month 2 ++ js "-" ++ pad_number day 2
  ++ js "T" ++ pad_number (rest / 3600000) 2
  ++ js ":" ++ pad_number ((rest / 60000) mod 60) 2
  ++ js ":" ++ pad_number ((rest / 1000) mod 60) 2
  ++ js "." ++ pad_number (rest mod 1000) 3 ++ js "Z".

#[export] Instance platform : Platform := {|
  TextEncoder_encode := encode;
  subtle_HMAC_SHA256 := sign_HMAC_SHA256;
  JSON_parse := parse;
  JSON_stringify := stringify;
  Date_toISOString := toISOString;
  Error_stack := λ _, None
|}.
End Reference.

(** ** A sample deployment

    The setting of the repository's tests, on the reference platform: a
    configured secret, a network that accepts every report, and a signed
    Stripe delivery. *)
Module Sample.

Definition secret : jsstring := js "hr_sec_test_secret".
Definition eventId : jsstring := js "evt_test123".

(** The time of delivery, in seconds, and a clock that starts there and
    advances 25 ms between readings. *)
Definition time : Z := 1700000000.
Definition world (env : gmap string jsstring) (reply : Result FetchResponse) : World :=
  {| process_env := env;
     clock := λ k, 1000 * time + 25 * Z.of_nat k;
     network := λ _, reply |}.

Definition env : gmap string jsstring := {[ "HOOKRELAY_SECRET" := secret ]}.
Definition accepting : Result FetchResponse :=
  Ok {| ok := true; response_status := 200; statusText := js "OK" |}.
Definition refusing : Result FetchResponse :=
  Ok {| ok := false; response_status := 401; statusText := js "Unauthorized" |}.

(** [{"id":"evt_stripe_123"}] *)
Definition payload_text : jsstring :=
  js "{" ++ Reference.quote (js "id") ++ js ":" ++ Reference.quote (js "evt_stripe_123")
  ++ js "}".
Definition payload : JSValue := VObject [(js "id", VString (js "evt_stripe_123"))].

(** The signature header the relay sends for a body at a time. *)
Definition signature_for (timestamp : Z) (text : jsstring) : jsstring :=
  match signPayload (host := Reference.platform) timestamp text secret with
  | Ok sig => sig
  | Throw _ => []
  end.

Definition request (provider timestamp signature replayed text : jsstring) : Request :=
  {| headers :=
       list_to_map
         [(lowercase HEADERS_EVENT_ID, eventId);
          (lowercase HEADERS_PROVIDER, provider);
          (lowercase HEADERS_TIMESTAMP, timestamp);
          (lowercase HEADERS_SIGNATURE, signature);
          (lowercase HEADERS_ATTEMPT, js "1");
          (lowercase HEADERS_REPLAYED, replayed)];
     body := text |}.

(** A well-signed delivery of a body. *)
Definition delivery (replayed text : jsstring) : Request :=
  request (js "stripe") (String_of_number time) (signature_for time text) replayed text.

Definition options (allow : option bool) : HookRelayOptions :=
  {| provider := js "stripe"; timeoutMs := None; enforceIdempotency := None;
     allowReplay := allow |}.

Definition succeeding : HookRelayHandler := λ _, Ok tt.
Definition failing : HookRelayHandler :=
  λ _, Throw (ErrorInstance (js "Error") (js "Database connection failed") None).
Definition throwing_text : HookRelayHandler := λ _, Throw (ThrownValue (VString (js "boom"))).

(** A callback that throws [Object.create(null)]: an object without
    prototype, which [String] cannot convert; the conversion throws a
    [TypeError]. *)
Definition conversion_error : Thrown :=
  ErrorInstance (js "TypeError") (js "Cannot convert object to primitive value") None.
Definition throwing_object : HookRelayHandler := λ _, Throw (Unconvertible conversion_error).

(** What a caller and the relay see of a delivery: the status of the
    response and the bodies of the reports sent. *)
Definition observe (handler : HookRelayHandler) (reply : Result FetchResponse)
    : option Z * list jsstring :=
  let outcome :=
    run (withHookRelay (host := Reference.platform) handler (options None)
           (delivery (js "false") payload_text))
        (world env reply) in
  (match fst outcome with Ok response => Some (res_status response) | Throw _ => None end,
   fetch_body <$> fetches (trace (snd outcome))).

(** The text of a report: [{"status":"<status>","durationMs":25<more>}]. *)
Definition report (status more : jsstring) : jsstring :=
  js "{" ++ Reference.quote (js "status") ++ js ":" ++ Reference.quote status ++ js ","
  ++ Reference.quote (js "durationMs") ++ js ":25" ++ more ++ js "}".

(** [,"error":{"name":"Error","message":"<message>"}] *)
Definition error_text (message : jsstring) : jsstring :=
  js "," ++ Reference.quote (js "error") ++ js ":{" ++ Reference.quote (js "name") ++ js ":"
  ++ Reference.quote (js "Error") ++ js "," ++ Reference.quote (js "message") ++ js ":"
  ++ Reference.quote message ++ js "}".
End Sample.

(** * Properties *)

(** ** Numbers and their decimal rendering *)

Lemma toRadix_S radix fuel n acc :
  toRadix radix (S fuel) n acc =
  if n <? radix then digitChar (n mod radix) :: acc
  else toRadix radix fuel (n / radix) (digitChar (n mod radix) :: acc).
Proof. reflexivity. Qed.

Lemma toRadix_decimal fuel : ∀ n acc,
  0 ≤ n < 10 ^ Z.of_nat (S fuel) →
  ∃ ds, toRadix 10 (S fuel) n acc = ds ++ acc
        ∧ ds ≠ []
        ∧ Forall (λ c, isDecimalDigit c = true) ds
        ∧ ∀ a, fold_left (λ a c, 10 * a + (c - 48)) ds a = a * 10 ^ Z.of_nat (length ds) + n.
Proof.
  induction fuel as [|fuel IH]; intros n acc Hn.
  - assert (n < 10) by (change (10 ^ Z.of_nat 1) with 10 in Hn; lia).
    exists [digitChar (n mod 10)]. rewrite toRadix_S.
    destruct (n <? 10) eqn:E; [|lia].
    rewrite Z.mod_small by lia. unfold digitChar. rewrite E.
    repeat split; [done| |].
    + constructor; [|constructor]. unfold isDecimalDigit. lia.
    + intros a. cbn. lia.
  - rewrite toRadix_S. destruct (n <? 10) eqn:E.
    + exists [digitChar (n mod 10)].
      rewrite Z.mod_small by lia. unfold digitChar. rewrite E.
      repeat split; [done| |].
      * constructor; [|constructor]. unfold isDecimalDigit. lia.
      * intros a. cbn. lia.
    + assert (Hq : 0 ≤ n / 10 < 10 ^ Z.of_nat (S fuel)).
      { split; [apply Z.div_pos; lia|].
        apply Z.div_lt_upper_bound; [lia|].
        replace (Z.of_nat (S (S fuel))) with (Z.succ (Z.of_nat (S fuel))) in Hn by lia.
        rewrite Z.pow_succ_r in Hn by lia. lia. }
      destruct (IH (n / 10) (digitChar (n mod 10) :: acc) Hq) as (ds & Heq & Hne & Hall & Hval).
      exists (ds ++ [digitChar (n mod 10)]).
      assert (Hm : 0 ≤ n mod 10 < 10) by (apply Z.mod_pos_bound; lia).
      repeat split.
      * rewrite Heq, <- app_assoc. done.
      * destruct ds; done.
      * apply Forall_app. split; [done|]. constructor; [|constructor].
        unfold isDecimalDigit, digitChar. destruct (n mod 10 <? 10) eqn:E'; lia.
      * intros a. rewrite fold_left_app, Hval. cbn [fold_left].
        unfold digitChar. destruct (n mod 10 <? 10) eqn:E'; [|lia].
        rewrite length_app. cbn [length].
        replace (Z.of_nat (length ds + 1)) with (Z.succ (Z.of_nat (length ds))) by lia.
        rewrite Z.pow_succ_r by lia.
        pose proof (Z.div_mod n 10). lia.
Qed.

Lemma digitsFuel_enough n : 0 ≤ n → n < 10 ^ Z.of_nat (digitsFuel n).
Proof.
  intros Hn. unfold digitsFuel.
  destruct (Z.eq_dec n 0) as [->|Hnz]; [done|].
  assert (Hlog := Z.log2_spec n ltac:(lia)).
  rewrite Nat2Z.inj_succ, Z2Nat.id by apply Z.log2_nonneg.
  eapply Z.lt_le_trans; [apply Hlog|].
  apply Z.pow_le_mono_l. lia.
Qed.

Lemma digitPrefix_all ds :
  Forall (λ c, isDecimalDigit c = true) ds → digitPrefix ds = ds.
Proof. induction 1 as [|c ds Hc _ IH]; cbn; [done|]. by rewrite Hc, IH. Qed.

Lemma parseInt_digits sign ds :
  ds ≠ [] → Forall (λ c, isDecimalDigit c = true) ds →
  match digitPrefix ds with
  | [] => None
  | digits => Some (sign * mathInt digits)
  end = Some (sign * mathInt ds).
Proof. intros Hne Hall. rewrite digitPrefix_all by done. by destruct ds. Qed.

Lemma digit_not_space c : isDecimalDigit c = true → isWhiteSpace c = false.
Proof. unfold isDecimalDigit, isWhiteSpace. lia. Qed.

Lemma parseInt_Number_toString n :
  0 ≤ n →
  ∃ ds, Number_toString n 10 = ds ∧ ds ≠ []
        ∧ Forall (λ c, isDecimalDigit c = true) ds ∧ mathInt ds = n.
Proof.
  intros Hn. unfold Number_toString.
  destruct (toRadix_decimal (Z.to_nat (Z.log2 n)) n []) as (ds & Heq & Hne & Hall & Hval).
  { split; [done|]. apply (digitsFuel_enough n Hn). }
  exists ds. unfold digitsFuel. rewrite Heq, app_nil_r.
  repeat split; try done. unfold mathInt. rewrite Hval. lia.
Qed.

(** [parseInt] reads back what [String] wrote, for every integer. *)
Lemma parseInt_String_of_number n : parseInt (String_of_number n) = Some n.
Proof.
  unfold String_of_number. destruct (n <? 0) eqn:E.
  - destruct (parseInt_Number_toString (- n)) as (ds & -> & Hne & Hall & Hval); [lia|].
    unfold parseInt. cbn [trimStart]. change (isWhiteSpace 45) with false. cbn match.
    change (45 =? 45) with true. cbn match.
    rewrite parseInt_digits by done. f_equal. lia.
  - destruct (parseInt_Number_toString n) as (ds & -> & Hne & Hall & Hval); [lia|].
    unfold parseInt. destruct ds as [|c ds]; [done|].
    assert (Hc : isDecimalDigit c = true) by (by inversion Hall).
    cbn [trimStart]. rewrite (digit_not_space c Hc).
    assert ((c =? 45) = false) as -> by (unfold isDecimalDigit in Hc; lia).
    assert ((c =? 43) = false) as -> by (unfold isDecimalDigit in Hc; lia).
    rewrite parseInt_digits by done. f_equal. lia.
Qed.

(** ** Bit operations on code units *)

Lemma ToInt32_small z : 0 ≤ z < 2 ^ 31 → ToInt32 z = z.
Proof.
  intros Hz. unfold ToInt32. rewrite Z.mod_small by lia.
  destruct (z <? 2 ^ 31) eqn:E; lia.
Qed.

Lemma lxor_code_unit x y : code_unit x → code_unit y → code_unit (Z.lxor x y).
Proof.
  unfold code_unit. intros Hx Hy.
  assert (0 ≤ Z.lxor x y) by (apply Z.lxor_nonneg; lia).
  split; [done|].
  destruct (Z.eq_dec (Z.lxor x y) 0) as [->|Hnz]; [lia|].
  change 65536 with (2 ^ 16). apply Z.log2_lt_pow2; [lia|].
  eapply Z.le_lt_trans; [apply Z.log2_lxor; lia|].
  apply Z.max_lub_lt.
  - destruct (Z.eq_dec x 0) as [->|?]; [done|]. apply Z.log2_lt_pow2; lia.
  - destruct (Z.eq_dec y 0) as [->|?]; [done|]. apply Z.log2_lt_pow2; lia.
Qed.

Lemma lor_code_unit x y : code_unit x → code_unit y → code_unit (Z.lor x y).
Proof.
  unfold code_unit. intros Hx Hy.
  assert (0 ≤ Z.lor x y) by (apply Z.lor_nonneg; lia).
  split; [done|].
  destruct (Z.eq_dec (Z.lor x y) 0) as [->|Hnz]; [lia|].
  change 65536 with (2 ^ 16). apply Z.log2_lt_pow2; [lia|].
  rewrite Z.log2_lor by lia.
  apply Z.max_lub_lt.
  - destruct (Z.eq_dec x 0) as [->|?]; [done|]. apply Z.log2_lt_pow2; lia.
  - destruct (Z.eq_dec y 0) as [->|?]; [done|]. apply Z.log2_lt_pow2; lia.
Qed.

Lemma bitxor_code_units x y :
  code_unit x → code_unit y → bitxor (Some x) (Some y) = Z.lxor x y.
Proof.
  intros Hx Hy. unfold bitxor, ToInt32_opt.
  rewrite (ToInt32_small x), (ToInt32_small y) by (unfold code_unit in *; lia).
  apply ToInt32_small. pose proof (lxor_code_unit x y Hx Hy). unfold code_unit in *. lia.
Qed.

Lemma bitor_code_units x y : code_unit x → code_unit y → bitor x y = Z.lor x y.
Proof.
  intros Hx Hy. unfold bitor.
  rewrite (ToInt32_small x), (ToInt32_small y) by (unfold code_unit in *; lia).
  apply ToInt32_small. pose proof (lor_code_unit x y Hx Hy). unfold code_unit in *. lia.
Qed.

(** ** The comparison loop *)

(** What the loop accumulates: the OR of the XORs of all positions. *)
Lemma fold_lor_code_unit xs r :
  code_unit r → Forall code_unit xs → code_unit (fold_left Z.lor xs r).
Proof.
  intros Hr Hxs. revert r Hr.
  induction Hxs as [|x xs Hx _ IH]; intros r Hr; cbn; [done|].
  apply IH. by apply lor_code_unit.
Qed.

Lemma zip_lxor_code_unit a b :
  wf_string a → wf_string b → Forall code_unit (zip_with Z.lxor a b).
Proof.
  intros Ha. revert b. induction Ha as [|x a Hx _ IH]; intros b Hb; cbn; [constructor|].
  destruct Hb as [|y b Hy Hb]; [constructor|].
  constructor; [by apply lxor_code_unit|by apply IH].
Qed.

Lemma timingSafeEqual_loop_spec a b : ∀ remaining i result,
  wf_string a → wf_string b → code_unit result →
  (i + remaining = length a)%nat → length a = length b →
  timingSafeEqual_loop a b i remaining result
  = fold_left Z.lor (zip_with Z.lxor (drop i a) (drop i b)) result.
Proof.
  induction remaining as [|remaining IH]; intros i result Ha Hb Hr Hi Hlen.
  - cbn. rewrite (drop_ge a) by lia. done.
  - cbn [timingSafeEqual_loop]. unfold charCodeAt.
    destruct (lookup_lt_is_Some_2 a i) as [x Hx]; [lia|].
    destruct (lookup_lt_is_Some_2 b i) as [y Hy]; [lia|].
    rewrite Hx, Hy.
    assert (Hcx : code_unit x) by exact (Forall_lookup_1 _ _ _ _ Ha Hx).
    assert (Hcy : code_unit y) by exact (Forall_lookup_1 _ _ _ _ Hb Hy).
    rewrite bitxor_code_units, bitor_code_units by auto using lxor_code_unit.
    rewrite IH; auto using lor_code_unit, lxor_code_unit; [|lia].
    rewrite (drop_S a x i Hx), (drop_S b y i Hy). done.
Qed.

Lemma fold_lor_zero xs r :
  fold_left Z.lor xs r = 0 ↔ r = 0 ∧ Forall (λ x, x = 0) xs.
Proof.
  revert r. induction xs as [|x xs IH]; intros r; cbn.
  - split; [intros ->; split; [done|constructor]|by intros [-> _]].
  - rewrite IH, Z.lor_eq_0_iff. split.
    + intros [[-> ->] Hxs]. split; [done|by constructor].
    + intros [-> Hxs]. inversion Hxs; subst. done.
Qed.

Lemma zip_lxor_zero a : ∀ b,
  length a = length b → Forall (λ x, x = 0) (zip_with Z.lxor a b) ↔ a = b.
Proof.
  induction a as [|x a IH]; intros [|y b] Hlen; cbn in *; try done.
  injection Hlen as Hlen. split.
  - intros Hz. inversion Hz as [|? ? Hxy Hrest]; subst.
    apply Z.lxor_eq in Hxy. apply IH in Hrest; [|done]. by subst.
  - intros [= -> ->]. constructor; [apply Z.lxor_nilpotent|]. by apply IH.
Qed.

Lemma timingSafeEqual_length a b : length a ≠ length b → timingSafeEqual a b = false.
Proof.
  intros Hne. unfold timingSafeEqual.
  destruct (length a =? length b)%nat eqn:E; [|done].
  apply Nat.eqb_eq in E. done.
Qed.

Lemma timingSafeEqual_fold a b :
  wf_string a → wf_string b → length a = length b →
  timingSafeEqual a b = (fold_left Z.lor (zip_with Z.lxor a b) 0 =? 0).
Proof.
  intros Ha Hb Hlen. unfold timingSafeEqual.
  rewrite Hlen, Nat.eqb_refl. cbn [negb]. rewrite <- Hlen.
  rewrite timingSafeEqual_loop_spec; done.
Qed.

Lemma timingSafeEqual_eq a b :
  wf_string a → wf_string b → timingSafeEqual a b = true ↔ a = b.
Proof.
  intros Ha Hb. destruct (decide (length a = length b)) as [Hlen|Hlen].
  - rewrite timingSafeEqual_fold by done.
    rewrite Z.eqb_eq, fold_lor_zero, zip_lxor_zero by done. tauto.
  - rewrite timingSafeEqual_length by done. split; [done|]. intros ->. done.
Qed.

(** ** Hex digests *)

Lemma hex_of_byte b :
  padStart (Number_toString (Z.of_N (Byte.to_N b)) 16) 2 48
  = [digitChar (byte_value b / 16); digitChar (byte_value b mod 16)].
Proof. destruct b; vm_compute; reflexivity. Qed.

Lemma byte_value_range b : 0 ≤ byte_value b < 256.
Proof. unfold byte_value. pose proof (Byte.to_N_bounded b). lia. Qed.

Lemma byte_value_inj b b' : byte_value b = byte_value b' → b = b'.
Proof.
  unfold byte_value. intros Heq. apply N2Z.inj in Heq.
  pose proof (Byte.of_to_N b) as Hb. rewrite Heq, Byte.of_to_N in Hb. congruence.
Qed.

Lemma digitChar_code_unit d : 0 ≤ d < 16 → code_unit (digitChar d).
Proof. unfold code_unit, digitChar. destruct (d <? 10); lia. Qed.

Lemma digitChar_inj d d' :
  0 ≤ d < 16 → 0 ≤ d' < 16 → digitChar d = digitChar d' → d = d'.
Proof. unfold digitChar. destruct (d <? 10) eqn:E, (d' <? 10) eqn:E'; lia. Qed.

Lemma hexDigest_cons b bytes :
  hexDigest (b :: bytes)
  = digitChar (byte_value b / 16) :: digitChar (byte_value b mod 16) :: hexDigest bytes.
Proof. unfold hexDigest. cbn [fmap list_fmap concat]. by rewrite hex_of_byte. Qed.

Lemma hexDigest_wf bytes : wf_string (hexDigest bytes).
Proof.
  induction bytes as [|b bytes IH]; [constructor|].
  rewrite hexDigest_cons. pose proof (byte_value_range b).
  constructor; [|constructor; [|done]]; apply digitChar_code_unit.
  - split; [apply Z.div_pos; lia|apply Z.div_lt_upper_bound; lia].
  - apply Z.mod_pos_bound. lia.
Qed.

(** Distinct digests have distinct hex renderings. *)
Lemma hexDigest_inj bytes : ∀ bytes', hexDigest bytes = hexDigest bytes' → bytes = bytes'.
Proof.
  induction bytes as [|b bytes IH]; intros [|b' bytes'] Heq;
    rewrite ?hexDigest_cons in Heq; try done.
  injection Heq as Hhi Hlo Hrest.
  pose proof (byte_value_range b). pose proof (byte_value_range b').
  apply digitChar_inj in Hhi;
    [|split; [apply Z.div_pos; lia|apply Z.div_lt_upper_bound; lia]..].
  apply digitChar_inj in Hlo; [|apply Z.mod_pos_bound; lia..].
  f_equal; [|by apply IH].
  apply byte_value_inj.
  rewrite (Z.div_mod (byte_value b) 16), (Z.div_mod (byte_value b') 16) by lia. lia.
Qed.

(** ** Signing and verifying *)

Lemma startsWith_app p s : startsWith (p ++ s) p = true.
Proof. induction p as [|c p IH]; cbn; [done|]. by rewrite Z.eqb_refl, IH. Qed.

Lemma startsWith_inv p : ∀ s, startsWith s p = true → ∃ rest, s = p ++ rest.
Proof.
  induction p as [|c p IH]; intros s Hs; [by exists s|].
  destruct s as [|d s]; [done|]. cbn in Hs.
  apply andb_true_iff in Hs as [Hc Hs]. apply Z.eqb_eq in Hc as ->.
  destruct (IH s Hs) as [rest ->]. by exists rest.
Qed.

Lemma slice_app p s : slice (p ++ s) (length p) = s.
Proof. unfold slice. by rewrite drop_app_length. Qed.

Lemma version_prefix : SIGNATURE_VERSION ++ js "=" = js "v1=".
Proof. reflexivity. Qed.

Lemma version_prefix_length : (length SIGNATURE_VERSION + 1)%nat = length (js "v1=").
Proof. reflexivity. Qed.

Section SigningFacts.
Context {host : Platform}.

Lemma signPayload_inv timestamp payload secret sig :
  signPayload timestamp payload secret = Ok sig →
  ∃ digest,
    subtle_HMAC_SHA256 (TextEncoder_encode secret)
      (TextEncoder_encode (String_of_number timestamp ++ js "." ++ payload)) = Ok digest
    ∧ sig = js "v1=" ++ hexDigest digest.
Proof.
  unfold signPayload. destruct (subtle_HMAC_SHA256 _ _) as [digest|e]; [|done].
  intros [= <-]. by exists digest.
Qed.

Lemma signText_inv text payload secret sig :
  signText text payload secret = Ok sig →
  ∃ digest,
    subtle_HMAC_SHA256 (TextEncoder_encode secret)
      (TextEncoder_encode (text ++ js "." ++ payload)) = Ok digest
    ∧ sig = js "v1=" ++ hexDigest digest.
Proof.
  unfold signText. destruct (subtle_HMAC_SHA256 _ _) as [digest|e]; [|done].
  intros [= <-]. by exists digest.
Qed.

(** Inside the tolerance the verdict is the comparison of the two hex
    digests, the expected one computed over the parsed number. *)
Lemma verify_in_window w st timestamp ts payload digest expected secret :
  parseInt timestamp = Some ts →
  Z.abs (now w st - ts) ≤ 300 →
  subtle_HMAC_SHA256 (TextEncoder_encode secret)
    (TextEncoder_encode (String_of_number ts ++ js "." ++ payload)) = Ok digest →
  verifySignature timestamp payload (js "v1=" ++ expected) secret w st
  = (Ok (timingSafeEqual (hexDigest digest) expected), tick st).
Proof.
  intros Hts Hskew Hmac.
  unfold verifySignature, crypto_verifySignature, bind, Date_now, ret, await.
  rewrite Hts. unfold now in Hskew. unfold TIMESTAMP_TOLERANCE_SECONDS.
  destruct (Z.abs _ >? 300) eqn:E; [lia|].
  unfold signPayload. rewrite Hmac.
  rewrite app_assoc, version_prefix, version_prefix_length.
  by rewrite startsWith_app, !slice_app.
Qed.

(** Verification reads the clock once and has no other effect. *)
Lemma verify_state w st timestamp payload signatureHeader secret :
  snd (verifySignature timestamp payload signatureHeader secret w st) = tick st.
Proof.
  unfold verifySignature, crypto_verifySignature, bind, Date_now, ret, await.
  destruct (parseInt timestamp) as [ts|]; [|done].
  destruct (Z.abs _ >? _); [done|].
  destruct (negb _); [done|].
  destruct (signPayload ts payload secret); done.
Qed.
End SigningFacts.

(** ** Reporting an outcome *)

Section OutcomeFacts.
Context {host : Platform}.

(** One call to [reportOutcome] issues one [fetch], answers whether the
    network accepted it, never throws, and logs exactly when it did not. *)
Lemma reportOutcome_run w st eventId outcome secret apiUrl :
  ∃ call logs,
    reportOutcome eventId outcome secret apiUrl w st
    = (Ok (accepted w call), after st (Fetched call :: logs))
    ∧ url call = default (default DEFAULT_API_URL (process_env w !! "HOOKRELAY_API_URL")) apiUrl
                 ++ js "/v1/events/" ++ eventId ++ js "/outcome"
    ∧ method call = js "POST"
    ∧ fetch_headers call = [("Content-Type", js "application/json");
                            ("Authorization", js "Bearer " ++ secret)]
    ∧ fetch_body call = JSON_stringify outcome
    ∧ (if accepted w call then logs = [] else ∃ args, logs = [ConsoleError args]).
Proof.
  exists {| url := default (default DEFAULT_API_URL (process_env w !! "HOOKRELAY_API_URL"))
                     apiUrl ++ js "/v1/events/" ++ eventId ++ js "/outcome";
            method := js "POST";
            fetch_headers := [("Content-Type", js "application/json");
                              ("Authorization", js "Bearer " ++ secret)];
            fetch_body := JSON_stringify outcome |}.
  cbv [reportOutcome bind getenv try_catch fetch emit console_error ret accepted after].
  cbn [ticks trace url method fetch_headers fetch_body].
  destruct (network w _) as [response|e].
  - destruct (ok response) eqn:Hok; cbn [negb ticks trace].
    + exists []. repeat split; done.
    + eexists. split; [rewrite <- app_assoc; reflexivity|]. repeat split; try done.
      by eexists.
  - cbn [ticks trace]. eexists. split; [rewrite <- app_assoc; reflexivity|].
    repeat split; try done. by eexists.
Qed.
End OutcomeFacts.

(** ** The gates of the wrapper *)

Section GateFacts.
Context {host : Platform}.
Variables (w : World) (handler : HookRelayHandler) (options : HookRelayOptions)
          (request : Request).

Lemma gate_config st :
  truthy (process_env w !! "HOOKRELAY_SECRET") = None →
  hookRelayHandler handler options request w st
  = (Throw (HookRelayConfigError
              (js "HOOKRELAY_SECRET environment variable is not configured")), st).
Proof.
  intros Hsecret. unfold hookRelayHandler. cbv [bind getenv throw].
  by rewrite Hsecret.
Qed.

Lemma gate_missing st secret :
  configured w secret →
  truthy (Headers_get (headers request) HEADERS_EVENT_ID) = None
  ∨ truthy (Headers_get (headers request) HEADERS_SIGNATURE) = None
  ∨ truthy (Headers_get (headers request) HEADERS_TIMESTAMP) = None →
  hookRelayHandler handler options request w st
  = (Ok (error_response "Missing required Hook Relay headers" 400), st).
Proof.
  intros Hsecret Hmissing. unfold hookRelayHandler. cbv [bind getenv ret].
  rewrite Hsecret.
  destruct Hmissing as [->|[->| ->]]; [done|..].
  - by destruct (truthy (Headers_get (headers request) HEADERS_EVENT_ID)).
  - by destruct (truthy (Headers_get (headers request) HEADERS_EVENT_ID)),
                (truthy (Headers_get (headers request) HEADERS_SIGNATURE)).
Qed.

Lemma gate_provider st secret eventId signature timestamp :
  configured w secret →
  truthy (Headers_get (headers request) HEADERS_EVENT_ID) = Some eventId →
  truthy (Headers_get (headers request) HEADERS_SIGNATURE) = Some signature →
  truthy (Headers_get (headers request) HEADERS_TIMESTAMP) = Some timestamp →
  Headers_get (headers request) HEADERS_PROVIDER ≠ Some (provider options) →
  hookRelayHandler handler options request w st
  = (Ok (Response_json
           (VObject [(js "error",
                      VString (js "Expected provider '" ++ provider options ++ js "', got '"
                               ++ default (js "unknown")
                                    (Headers_get (headers request) HEADERS_PROVIDER)
                               ++ js "'"))]) 400), st).
Proof.
  intros Hsecret He Hs Ht Hp. unfold hookRelayHandler. cbv [bind getenv ret].
  rewrite Hsecret, He, Hs, Ht. by rewrite bool_decide_eq_false_2.
Qed.

Lemma gate_signature st st' secret eventId signature timestamp :
  configured w secret →
  passes_header_checks options request eventId signature timestamp →
  verifySignature timestamp (body request) signature secret w st = (Ok false, st') →
  hookRelayHandler handler options request w st
  = (Ok (error_response "Invalid signature" 401), st').
Proof.
  intros Hsecret (He & Hs & Ht & Hp) Hv. unfold hookRelayHandler.
  cbv [bind getenv ret Request_text].
  rewrite Hsecret, He, Hs, Ht, bool_decide_eq_true_2 by done. cbn [negb].
  by rewrite Hv.
Qed.

Lemma gate_signature_throws st st' secret eventId signature timestamp e :
  configured w secret →
  passes_header_checks options request eventId signature timestamp →
  verifySignature timestamp (body request) signature secret w st = (Throw e, st') →
  hookRelayHandler handler options request w st = (Throw e, st').
Proof.
  intros Hsecret (He & Hs & Ht & Hp) Hv. unfold hookRelayHandler.
  cbv [bind getenv ret Request_text].
  rewrite Hsecret, He, Hs, Ht, bool_decide_eq_true_2 by done. cbn [negb].
  by rewrite Hv.
Qed.

Lemma gate_json st st' secret eventId signature timestamp :
  configured w secret →
  passes_header_checks options request eventId signature timestamp →
  verifySignature timestamp (body request) signature secret w st = (Ok true, st') →
  JSON_parse (body request) = None →
  hookRelayHandler handler options request w st
  = (Ok (error_response "Invalid JSON payload" 400), st').
Proof.
  intros Hsecret (He & Hs & Ht & Hp) Hv Hjson. unfold hookRelayHandler.
  cbv [bind getenv ret Request_text].
  rewrite Hsecret, He, Hs, Ht, bool_decide_eq_true_2 by done. cbn [negb].
  rewrite Hv. cbn [negb]. by rewrite Hjson.
Qed.

Lemma gate_replay st st' secret eventId signature timestamp payload :
  configured w secret →
  passes_header_checks options request eventId signature timestamp →
  verifySignature timestamp (body request) signature secret w st = (Ok true, st') →
  JSON_parse (body request) = Some payload →
  replay_refused options request →
  hookRelayHandler handler options request w st
  = (Ok (error_response "Replayed events are not allowed" 400), st').
Proof.
  intros Hsecret (He & Hs & Ht & Hp) Hv Hjson [Hr Ha]. unfold hookRelayHandler.
  cbv [bind getenv ret Request_text].
  rewrite Hsecret, He, Hs, Ht, bool_decide_eq_true_2 by done. cbn [negb].
  rewrite Hv. cbn [negb]. rewrite Hjson.
  by rewrite !bool_decide_eq_true_2 by done.
Qed.
End GateFacts.

(** ** Past the gates: the callback and the report *)

Section DispatchFacts.
Context {host : Platform}.
Variables (w : World) (handler : HookRelayHandler) (options : HookRelayOptions)
          (request : Request).

Lemma replay_allowed :
  ¬ replay_refused options request →
  bool_decide (Headers_get (headers request) HEADERS_REPLAYED = Some (js "true"))
  && bool_decide (allowReplay options = Some false) = false.
Proof.
  intros Hr. unfold replay_refused in Hr.
  apply andb_false_iff.
  destruct (decide (Headers_get (headers request) HEADERS_REPLAYED = Some (js "true")));
    [right|left]; apply bool_decide_eq_false_2; tauto.
Qed.

(** A request that passes every gate is delivered to the callback once.
    When the callback completes, or throws a value the wrapper can record,
    one report follows and a response is returned; when it throws a value
    the wrapper cannot record, the wrapper throws what the conversion
    threw, after a last reading of the clock. *)
Lemma dispatch st st' secret eventId signature timestamp payload :
  configured w secret →
  passes_header_checks options request eventId signature timestamp →
  verifySignature timestamp (body request) signature secret w st = (Ok true, st') →
  JSON_parse (body request) = Some payload →
  ¬ replay_refused options request →
  let event := delivered_event options request eventId payload (clock w (ticks st')) in
  let duration := clock w (S (S (ticks st'))) - clock w (S (ticks st')) in
  match recorded (handler event) with
  | Throw raised =>
      hookRelayHandler handler options request w st
      = (Throw raised, after (tick (tick (tick st'))) [HandlerCalled event])
  | Ok error =>
      ∃ call logs,
        hookRelayHandler handler options request w st
        = (Ok (response_of error eventId),
           after (tick (tick (tick st'))) (HandlerCalled event :: Fetched call :: logs))
        ∧ url call = default DEFAULT_API_URL (process_env w !! "HOOKRELAY_API_URL")
                     ++ js "/v1/events/" ++ eventId ++ js "/outcome"
        ∧ method call = js "POST"
        ∧ fetch_headers call = [("Content-Type", js "application/json");
                                ("Authorization", js "Bearer " ++ secret)]
        ∧ fetch_body call = JSON_stringify (outcome_of error duration)
        ∧ (if accepted w call then logs = []
           else ∃ args, logs = [ConsoleError args; report_failure_log error eventId])
  end.
Proof.
  intros Hsecret (He & Hs & Ht & Hp) Hv Hjson Hreplay event duration.
  unfold hookRelayHandler.
  cbv [bind getenv ret Request_text try_catch invoke emit await Date_now console_error throw].
  rewrite Hsecret, He, Hs, Ht, bool_decide_eq_true_2 by done. cbn [negb].
  rewrite Hv. cbn [negb]. rewrite Hjson, replay_allowed by done.
  cbn [ticks trace]. fold (delivered_event options request eventId payload (clock w (ticks st'))).
  fold event. fold duration.
  unfold recorded. destruct (handler event) as [[]|[name message stack|v|raised]] eqn:Hcall;
    cbn [errorInfo_of].
  4: { unfold after, tick. by cbn [ticks trace]. }
  all: match goal with |- context [reportOutcome ?a ?b ?c ?d ?w' ?s] =>
         destruct (reportOutcome_run w' s a b c d)
           as (call & logs & -> & Hurl & Hm & Hh & Hb & Hlogs)
       end.
  all: exists call; destruct (accepted w call).
  1,3,5: subst logs; exists []; cbn [negb]; split; [state_eq|done].
  all: destruct Hlogs as [args ->]; eexists; cbn [negb ticks trace].
  all: split; [state_eq|]; repeat split; try done; by eexists.
Qed.
End DispatchFacts.

(** ** Which runs reach the callback *)

Section Reach.
Context {host : Platform}.
Variables (w : World) (handler : HookRelayHandler) (options : HookRelayOptions)
          (request : Request).

(** The callback is invoked only for a request that passed every gate,
    and then with the event built from that request. *)
Lemma invoked_inv event :
  HandlerCalled event ∈ effects (withHookRelay handler options request) w →
  ∃ secret eventId signature timestamp payload,
    configured w secret
    ∧ passes_header_checks options request eventId signature timestamp
    ∧ verifySignature timestamp (body request) signature secret w initial
      = (Ok true, tick initial)
    ∧ JSON_parse (body request) = Some payload
    ∧ ¬ replay_refused options request
    ∧ event = delivered_event options request eventId payload (clock w 1).
Proof.
  unfold effects, run, withHookRelay. intros Hin.
  destruct (truthy (process_env w !! "HOOKRELAY_SECRET")) as [secret|] eqn:Hsecret;
    [|rewrite gate_config in Hin by done; by apply elem_of_nil in Hin].
  destruct (truthy (Headers_get (headers request) HEADERS_EVENT_ID)) as [eventId|] eqn:He;
    [|erewrite gate_missing in Hin by eauto; by apply elem_of_nil in Hin].
  destruct (truthy (Headers_get (headers request) HEADERS_SIGNATURE)) as [signature|] eqn:Hs;
    [|erewrite gate_missing in Hin by eauto; by apply elem_of_nil in Hin].
  destruct (truthy (Headers_get (headers request) HEADERS_TIMESTAMP)) as [timestamp|] eqn:Ht;
    [|erewrite gate_missing in Hin by eauto; by apply elem_of_nil in Hin].
  destruct (decide (Headers_get (headers request) HEADERS_PROVIDER = Some (provider options)))
    as [Hp|Hp];
    [|erewrite gate_provider in Hin by eauto; by apply elem_of_nil in Hin].
  assert (Hpass : passes_header_checks options request eventId signature timestamp) by done.
  pose proof (verify_state w initial timestamp (body request) signature secret) as Hst.
  destruct (verifySignature timestamp (body request) signature secret w initial)
    as [[[|]|e] st'] eqn:Hv; cbn [snd] in Hst; subst st'.
  2: { erewrite gate_signature in Hin by eauto. by apply elem_of_nil in Hin. }
  2: { erewrite gate_signature_throws in Hin by eauto. by apply elem_of_nil in Hin. }
  destruct (JSON_parse (body request)) as [payload|] eqn:Hjson;
    [|erewrite gate_json in Hin by eauto; by apply elem_of_nil in Hin].
  destruct (decide (replay_refused options request)) as [Hr|Hr];
    [erewrite gate_replay in Hin by eauto; by apply elem_of_nil in Hin|].
  exists secret, eventId, signature, timestamp, payload.
  repeat split; try done.
  pose proof (dispatch w handler options request initial (tick initial) secret eventId
                signature timestamp payload Hsecret Hpass Hv Hjson Hr) as Hrun.
  cbn zeta in Hrun. cbn [tick ticks initial] in Hrun.
  destruct (recorded _) as [error|raised].
  - destruct Hrun as (call & logs & Hrun & _ & _ & _ & _ & Hlogs).
    rewrite Hrun in Hin. cbn [snd after trace tick initial ticks app] in Hin.
    apply elem_of_cons in Hin as [[= ->]|Hin]; [done|].
    apply elem_of_cons in Hin as [?|Hin]; [done|].
    destruct (accepted w call); [subst logs; by apply elem_of_nil in Hin|].
    destruct Hlogs as [args ->].
    apply elem_of_cons in Hin as [?|Hin]; [done|].
    apply elem_of_cons in Hin as [?|Hin]; [done|]. by apply elem_of_nil in Hin.
  - rewrite Hrun in Hin. cbn [snd after trace tick initial ticks app] in Hin.
    apply elem_of_cons in Hin as [[= ->]|Hin]; [done|]. by apply elem_of_nil in Hin.
Qed.
End Reach.

(** ** The reference platform signs with every non-empty secret *)

Lemma reference_encode_nonempty c s : Reference.encode (c :: s) ≠ [].
Proof.
  unfold Reference.encode.
  assert (Hcp : ∃ p ps, Reference.codePoints (c :: s) = p :: ps).
  { cbn [Reference.codePoints].
    destruct (Reference.isHighSurrogate c).
    - destruct s as [|d s]; [by eexists _, _|].
      destruct (Reference.isLowSurrogate d); by eexists _, _.
    - destruct (Reference.isLowSurrogate c); by eexists _, _. }
  destruct Hcp as (p & ps & ->). cbn [mbind list_bind].
  unfold Reference.utf8.
  destruct (p <? 128); [done|]. destruct (p <? 2048); [done|]. by destruct (p <? 65536).
Qed.

Lemma reference_signs timestamp payload c secret :
  ∃ sig, signPayload (host := Reference.platform) timestamp payload (c :: secret) = Ok sig.
Proof.
  unfold signPayload. cbn [subtle_HMAC_SHA256 TextEncoder_encode Reference.platform].
  unfold Reference.sign_HMAC_SHA256.
  pose proof (reference_encode_nonempty c secret) as Hne.
  destruct (Reference.encode (c :: secret)); [done|]. by eexists.
Qed.

(** ** Every run of the wrapper has one of the shapes *)

Lemma run_shape {host : Platform} w handler options request :
  Shape w handler options request (run (withHookRelay handler options request) w).
Proof.
  unfold run, withHookRelay.
  destruct (truthy (process_env w !! "HOOKRELAY_SECRET")) as [secret|] eqn:Hsecret;
    [|rewrite gate_config by done; by constructor].
  destruct (truthy (Headers_get (headers request) HEADERS_EVENT_ID)) as [eventId|] eqn:He;
    [|erewrite gate_missing by eauto; econstructor; eauto].
  destruct (truthy (Headers_get (headers request) HEADERS_SIGNATURE)) as [signature|] eqn:Hs;
    [|erewrite gate_missing by eauto; econstructor; eauto].
  destruct (truthy (Headers_get (headers request) HEADERS_TIMESTAMP)) as [timestamp|] eqn:Ht;
    [|erewrite gate_missing by eauto; econstructor; eauto].
  destruct (decide (Headers_get (headers request) HEADERS_PROVIDER = Some (provider options)))
    as [Hp|Hp]; [|erewrite gate_provider by eauto; econstructor; eauto].
  assert (Hpass : passes_header_checks options request eventId signature timestamp) by done.
  pose proof (verify_state w initial timestamp (body request) signature secret) as Hst.
  destruct (verifySignature timestamp (body request) signature secret w initial)
    as [[[|]|e] st'] eqn:Hv; cbn [snd] in Hst; subst st'.
  2: { erewrite gate_signature by eauto. econstructor; eauto. }
  2: { erewrite gate_signature_throws by eauto. econstructor; eauto. }
  destruct (JSON_parse (body request)) as [payload|] eqn:Hjson;
    [|erewrite gate_json by eauto; econstructor; eauto].
  destruct (decide (replay_refused options request)) as [Hr|Hr];
    [erewrite gate_replay by eauto; econstructor; eauto|].
  pose proof (dispatch w handler options request initial (tick initial) secret eventId
                signature timestamp payload Hsecret Hpass Hv Hjson Hr) as Hrun.
  cbn zeta in Hrun. cbn [tick ticks initial] in Hrun.
  destruct (recorded _) as [error|raised] eqn:Hrec.
  - destruct Hrun as (call & logs & Hrun & Hurl & Hm & Hh & Hb & Hlogs).
    rewrite Hrun. unfold after. cbn [tick ticks trace initial app].
    by eapply shape_delivered.
  - rewrite Hrun. unfold after. cbn [tick ticks trace initial app].
    by eapply shape_escaped.
Qed.

(** ** More on hex digests and signed texts *)







(** ** More on verification *)

Section VerificationFacts.
Context {host : Platform}.

(** A header without the version prefix is refused before anything is
    signed, in or out of the tolerance. *)
Lemma verify_no_prefix w st timestamp payload signatureHeader secret :
  startsWith signatureHeader (js "v1=") = false →
  verifySignature timestamp payload signatureHeader secret w st = (Ok false, tick st).
Proof.
  intros Hprefix. unfold verifySignature, crypto_verifySignature, bind, Date_now, ret.
  destruct (parseInt timestamp) as [ts|]; [|done].
  destruct (Z.abs _ >? _); [done|].
  by rewrite version_prefix, Hprefix.
Qed.

(** Inside the tolerance, with the prefix, a failure to sign is the failure
    of the verification. *)
Lemma verify_signing_error w st timestamp ts payload signatureHeader secret e :
  parseInt timestamp = Some ts →
  Z.abs (now w st - ts) ≤ TIMESTAMP_TOLERANCE_SECONDS →
  startsWith signatureHeader (js "v1=") = true →
  signPayload ts payload secret = Throw e →
  verifySignature timestamp payload signatureHeader secret w st = (Throw e, tick st).
Proof.
  intros Hts Hskew Hprefix Hsign.
  unfold verifySignature, crypto_verifySignature, bind, Date_now, ret, await.
  rewrite Hts. unfold now in Hskew.
  destruct (Z.abs _ >? _) eqn:E; [lia|].
  by rewrite version_prefix, Hprefix, Hsign.
Qed.


Lemma signPayload_wf timestamp payload secret sig :
  signPayload timestamp payload secret = Ok sig → wf_string sig.
Proof.
  intros Hsign. destruct (signPayload_inv _ _ _ _ Hsign) as (digest & _ & ->).
  apply Forall_app. split; [|apply hexDigest_wf].
  repeat constructor; vm_compute; discriminate.
Qed.
End VerificationFacts.

(** ** The provider's event id *)

Lemma nullish_cases a b :
  b ≠ VUndefined → b ≠ VNull →
  nullish a b ≠ VUndefined ∧ nullish a b ≠ VNull
  ∧ (nullish a b = b ∨ nullish a b = a ∧ a ≠ VUndefined ∧ a ≠ VNull).
Proof. intros Hu Hn. destruct a; cbn [nullish]; split_and?; try done; auto. Qed.

Lemma extract_other_provider provider payload :
  provider ≠ js "stripe" → extractProviderEventId provider payload = VUndefined.
Proof.
  intros Hp. unfold extractProviderEventId.
  destruct (falsy payload || negb (typeof_object payload)); [done|].
  by rewrite bool_decide_eq_false_2.
Qed.

Lemma extract_cases provider payload :
  extractProviderEventId provider payload = VUndefined
  ∨ provider = js "stripe"
    ∧ ∃ fields, payload = VObject fields
                ∧ extractProviderEventId provider payload = lookup_field (js "id") fields.
Proof.
  destruct (decide (provider = js "stripe")) as [Hp|Hp];
    [|left; by apply extract_other_provider].
  unfold extractProviderEventId. rewrite bool_decide_eq_true_2 by done.
  destruct payload as [| |[]|n|s|items|fields]; try (by left).
  - destruct n; by left.
  - destruct s; by left.
  - right. split; [done|]. by exists fields.
Qed.

Lemma extract_stripe_object fields :
  extractProviderEventId (js "stripe") (VObject fields) = lookup_field (js "id") fields.
Proof. unfold extractProviderEventId. by rewrite bool_decide_eq_true_2. Qed.

Lemma extract_not_object provider payload :
  (∀ fields, payload ≠ VObject fields) →
  extractProviderEventId provider payload = VUndefined.
Proof.
  intros Hnot. destruct (extract_cases provider payload) as [?|(_ & fields & -> & _)];
    [done|]. by destruct (Hnot fields).
Qed.

(** ** What the wrapper records of a completion *)

Lemma recorded_throw completion raised :
  recorded completion = Throw raised → completion = Throw (Unconvertible raised).
Proof.
  unfold recorded. destruct completion as [[]|[name message stack|v|raised']];
    cbn [errorInfo_of]; congruence.
Qed.

Lemma recorded_ok completion error :
  recorded completion = Ok error →
  match error with
  | None => completion = Ok tt
  | Some info => ∃ e, completion = Throw e ∧ errorInfo_of e = Ok info
  end.
Proof.
  unfold recorded. destruct completion as [[]|e]; [by intros [= <-]|].
  destruct (errorInfo_of e) as [info|raised] eqn:He; [|done].
  intros [= <-]. by exists e.
Qed.

(** * The properties the specification states *)

Section SignatureClaims.
Context {host : Platform}.

(** C1. A signature produced by [signPayload] over a timestamp, a payload
    and a secret verifies against the rendering [String(ts)] of that
    timestamp, the same payload and the same secret, whenever the
    timestamp is within 300 seconds of the time of verification. *)
Theorem sign_then_verify w st ts payload secret sig :
  Z.abs (now w st - ts) ≤ TIMESTAMP_TOLERANCE_SECONDS →
  signPayload ts payload secret = Ok sig →
  verifySignature (String_of_number ts) payload sig secret w st = (Ok true, tick st).
Proof.
  intros Hskew Hsign.
  destruct (signPayload_inv ts payload secret sig Hsign) as (digest & Hmac & ->).
  rewrite (verify_in_window w st _ ts payload digest (hexDigest digest) secret);
    [|apply parseInt_String_of_number|exact Hskew|exact Hmac].
  do 2 f_equal. apply timingSafeEqual_eq; auto using hexDigest_wf.
Qed.

(** C3. [verifySignature] returns false, and does not throw, whenever the
    timestamp does not parse as an integer or parses to a value more than
    300 seconds away from the current time: for every payload, secret and
    signature header, a correct signature included. *)
Theorem verify_rejects_bad_timestamp w st timestamp payload signatureHeader secret :
  parseInt timestamp = None
  ∨ (∃ ts, parseInt timestamp = Some ts
           ∧ Z.abs (now w st - ts) > TIMESTAMP_TOLERANCE_SECONDS) →
  verifySignature timestamp payload signatureHeader secret w st = (Ok false, tick st).
Proof.
  intros Hts. unfold verifySignature, crypto_verifySignature, bind, Date_now, ret.
  destruct Hts as [->|(ts & -> & Hskew)]; [done|].
  unfold now in Hskew.
  destruct (Z.abs _ >? TIMESTAMP_TOLERANCE_SECONDS) eqn:E; [done|lia].
Qed.

End SignatureClaims.

(** C7. On strings (sequences of 16-bit code units) [timingSafeEqual]
    returns false when the lengths differ; on equal lengths its verdict is
    whether the OR over all positions of the XOR of the two code units is
    zero, every position taking part; and so it returns true exactly when
    the two strings are equal. *)
Theorem timingSafeEqual_correct a b :
  wf_string a → wf_string b →
  (length a ≠ length b → timingSafeEqual a b = false)
  ∧ (length a = length b →
     timingSafeEqual_loop a b 0 (length a) 0 = fold_left Z.lor (zip_with Z.lxor a b) 0
     ∧ timingSafeEqual a b = (fold_left Z.lor (zip_with Z.lxor a b) 0 =? 0))
  ∧ (timingSafeEqual a b = true ↔ a = b).
Proof.
  intros Ha Hb. split; [|split].
  - intros Hlen. unfold timingSafeEqual.
    destruct (length a =? length b)%nat eqn:E; [|done].
    apply Nat.eqb_eq in E. done.
  - intros Hlen.
    assert (Hloop : timingSafeEqual_loop a b 0 (length a) 0
                    = fold_left Z.lor (zip_with Z.lxor a b) 0)
      by (rewrite timingSafeEqual_loop_spec; done).
    split; [done|]. unfold timingSafeEqual.
    by rewrite Hlen, Nat.eqb_refl, <- Hlen, Hloop.
  - destruct (decide (length a = length b)) as [Hlen|Hlen].
    + rewrite timingSafeEqual_fold by done.
      rewrite Z.eqb_eq, fold_lor_zero, zip_lxor_zero by done. tauto.
    + rewrite timingSafeEqual_length by done. split; [done|]. intros ->. done.
Qed.

Section WrapperClaims.
Context {host : Platform}.
Variables (w : World) (handler : HookRelayHandler) (options : HookRelayOptions)
          (request : Request).

(** C8. With a secret configured, a request lacking the event-id, the
    signature or the timestamp header is answered 400 with
    [{error: "Missing required Hook Relay headers"}], whatever its provider
    header and the configured provider are: the gate stands before the
    provider check, and nothing else happens. *)
Theorem missing_headers_first secret :
  configured w secret →
  Headers_get (headers request) HEADERS_EVENT_ID = None
  ∨ Headers_get (headers request) HEADERS_SIGNATURE = None
  ∨ Headers_get (headers request) HEADERS_TIMESTAMP = None →
  run (withHookRelay handler options request) w
  = (Ok (Response_json
           (VObject [(js "error", VString (js "Missing required Hook Relay headers"))])
           400),
     initial).
Proof.
  intros Hsecret Hmissing. unfold run, withHookRelay, hookRelayHandler.
  cbv [bind getenv ret]. rewrite Hsecret.
  destruct Hmissing as [->|[->| ->]]; cbn [truthy]; [done|..].
  - by destruct (truthy (Headers_get (headers request) HEADERS_EVENT_ID)).
  - by destruct (truthy (Headers_get (headers request) HEADERS_EVENT_ID)),
                (truthy (Headers_get (headers request) HEADERS_SIGNATURE)).
Qed.

(** C2. For a request that passes the header checks of a configured
    handler: when signature verification fails the answer is 401 with
    [{error: "Invalid signature"}], whatever the body is and whether or
    not it is JSON; when verification succeeds and the body is not
    JSON the answer is 400 with [{error: "Invalid JSON payload"}]. In both
    cases the callback is not invoked and nothing is reported. *)
Theorem signature_gate_before_json secret eventId signature timestamp :
  configured w secret →
  passes_header_checks options request eventId signature timestamp →
  (fst (run (verifySignature timestamp (body request) signature secret) w) = Ok false →
   run (withHookRelay handler options request) w
   = (Ok (Response_json (VObject [(js "error", VString (js "Invalid signature"))]) 401),
      tick initial))
  ∧ (fst (run (verifySignature timestamp (body request) signature secret) w) = Ok true →
     JSON_parse (body request) = None →
     run (withHookRelay handler options request) w
     = (Ok (Response_json (VObject [(js "error", VString (js "Invalid JSON payload"))]) 400),
        tick initial)).
Proof.
  intros Hsecret Hpass. unfold run, withHookRelay.
  pose proof (verify_state w initial timestamp (body request) signature secret) as Hst.
  destruct (verifySignature timestamp (body request) signature secret w initial)
    as [r st'] eqn:Hv.
  cbn [fst snd] in *. subst st'. split.
  - intros ->. by erewrite gate_signature.
  - intros -> Hjson. by erewrite gate_json.
Qed.

(** C6. For a request that reaches the replay gate (configured handler,
    header checks passed, signature valid, body parsed): the answer is
    400 with [{error: "Replayed events are not allowed"}] exactly when
    the replayed header is literally "true" and [allowReplay] is
    explicitly [false]; in every other case the callback is invoked with
    the event of the request, whose [replayed] flag tells whether the
    header was literally "true". *)
Theorem replay_gate secret eventId signature timestamp payload :
  configured w secret →
  passes_header_checks options request eventId signature timestamp →
  fst (run (verifySignature timestamp (body request) signature secret) w) = Ok true →
  JSON_parse (body request) = Some payload →
  let refused :=
    Headers_get (headers request) HEADERS_REPLAYED = Some (js "true")
    ∧ allowReplay options = Some false in
  let refusal :=
    Response_json (VObject [(js "error", VString (js "Replayed events are not allowed"))])
      400 in
  (fst (run (withHookRelay handler options request) w) = Ok refusal ↔ refused)
  ∧ (refused → effects (withHookRelay handler options request) w = [])
  ∧ (¬ refused →
     ∃ event,
       invocations (effects (withHookRelay handler options request) w) = [event]
       ∧ event_id event = eventId
       ∧ event_payload event = payload
       ∧ event_replayed event
         = bool_decide (Headers_get (headers request) HEADERS_REPLAYED = Some (js "true"))).
Proof.
  intros Hsecret Hpass Hvalid Hjson refused refusal. unfold effects, run, withHookRelay in *.
  pose proof (verify_state w initial timestamp (body request) signature secret) as Hst.
  destruct (verifySignature timestamp (body request) signature secret w initial)
    as [r st'] eqn:Hv.
  cbn [fst snd] in *. subst r st'.
  assert (Hallowed : ¬ refused →
    ∃ rest,
      snd (hookRelayHandler handler options request w initial)
      = after (tick (tick (tick (tick initial))))
          (HandlerCalled (delivered_event options request eventId payload (clock w 1))
           :: rest)
      ∧ invocations rest = []
      ∧ fst (hookRelayHandler handler options request w initial) ≠ Ok refusal).
  { intros Hr.
    pose proof (dispatch w handler options request initial (tick initial) secret eventId
                  signature timestamp payload Hsecret Hpass Hv Hjson Hr) as Hrun.
    cbn zeta in Hrun. cbn [tick ticks initial] in Hrun.
    destruct (recorded _) as [error|raised].
    - destruct Hrun as (call & logs & Hrun & _ & _ & _ & _ & Hlogs). rewrite Hrun.
      exists (Fetched call :: logs). split; [done|]. split.
      + destruct (accepted w call); [by subst logs|]. by destruct Hlogs as [args ->].
      + cbn [fst]. by destruct error.
    - rewrite Hrun. exists []. by cbn [fst snd]. }
  split; [split|split].
  - intros Hres. destruct (decide refused) as [Hr|Hr]; [done|].
    by destruct (Hallowed Hr) as (rest & _ & _ & Hne).
  - intros Hr.
    by rewrite (gate_replay w handler options request initial (tick initial) secret
                  eventId signature timestamp payload).
  - intros Hr.
    by rewrite (gate_replay w handler options request initial (tick initial) secret
                  eventId signature timestamp payload).
  - intros Hr. destruct (Hallowed Hr) as (rest & Hrun & Hnone & _). rewrite Hrun.
    exists (delivered_event options request eventId payload (clock w 1)).
    split; [|done]. cbn [after trace tick initial app].
    cbn [invocations omap list_omap]. fold (invocations rest). by rewrite Hnone.
Qed.

(** C4. A failure of the callback can escape the wrapper. A callback that
    throws a value which the [catch] block cannot record, as a thrown
    [Object.create(null)], which [String] cannot convert, makes the wrapper
    itself throw what the conversion threw: the run has invoked the
    callback and read the clock a fourth time, but it sends no report, logs
    nothing and returns no response. (For an [Error] instance and for a
    value that [String] converts, the failure is reported and answered
    with 500: see the further properties of the wrapper.) *)
Theorem callback_failure_escapes event raised :
  HandlerCalled event ∈ effects (withHookRelay handler options request) w →
  handler event = Throw (Unconvertible raised) →
  run (withHookRelay handler options request) w
  = (Throw raised, {| ticks := 4; trace := [HandlerCalled event] |}).
Proof.
  intros Hin Hthrow.
  destruct (invoked_inv w handler options request event Hin)
    as (secret & eventId & signature & timestamp & payload
        & Hsecret & Hpass & Hv & Hjson & Hr & ->).
  pose proof (dispatch w handler options request initial (tick initial) secret eventId
                signature timestamp payload Hsecret Hpass Hv Hjson Hr) as Hrun.
  cbn zeta in Hrun. cbn [tick ticks initial] in Hrun.
  rewrite Hthrow in Hrun. cbn [recorded errorInfo_of] in Hrun.
  unfold run, withHookRelay. by rewrite Hrun.
Qed.

(** C5. When the callback, invoked with an event, completes, the wrapper
    sends exactly one report, a success report with the elapsed
    milliseconds, waits for it, and returns 202 with
    [{accepted: true, eventId}]; a report that is not accepted is logged
    and the response is the same. *)
Theorem callback_success_reported event :
  HandlerCalled event ∈ effects (withHookRelay handler options request) w →
  handler event = Ok tt →
  ∃ call,
    fst (run (withHookRelay handler options request) w)
    = Ok (Response_json
            (VObject [(js "accepted", VBool true);
                      (js "eventId", VString (event_id event))]) 202)
    ∧ Headers_get (headers request) HEADERS_EVENT_ID = Some (event_id event)
    ∧ fetches (effects (withHookRelay handler options request) w) = [call]
    ∧ method call = js "POST"
    ∧ url call = default DEFAULT_API_URL (process_env w !! "HOOKRELAY_API_URL")
                 ++ js "/v1/events/" ++ event_id event ++ js "/outcome"
    ∧ fetch_body call
      = JSON_stringify {| status := success; durationMs := clock w 3 - clock w 2;
                          error := None |}
    ∧ (if accepted w call
       then effects (withHookRelay handler options request) w
            = [HandlerCalled event; Fetched call]
       else ∃ args,
              effects (withHookRelay handler options request) w
              = [HandlerCalled event; Fetched call; ConsoleError args;
                 ConsoleError
                   [LogString
                      (js "[HookRelay] Failed to report success outcome for event "
                       ++ event_id event)]]).
Proof.
  intros Hin Hdone.
  destruct (invoked_inv w handler options request event Hin)
    as (secret & eventId & signature & timestamp & payload
        & Hsecret & Hpass & Hv & Hjson & Hr & ->).
  pose proof (dispatch w handler options request initial (tick initial) secret eventId
                signature timestamp payload Hsecret Hpass Hv Hjson Hr) as Hrun.
  cbn zeta in Hrun. cbn [tick ticks initial] in Hrun.
  rewrite Hdone in Hrun. cbn [recorded] in Hrun.
  destruct Hrun as (call & logs & Hrun & Hurl & Hm & _ & Hb & Hlogs).
  exists call. unfold effects, run, withHookRelay. rewrite Hrun.
  cbn [fst snd after trace tick initial app delivered_event event_id].
  repeat split; try done.
  - destruct Hpass as (He & _). unfold truthy in He.
    destruct (Headers_get (headers request) HEADERS_EVENT_ID) as [[|c s]|]; congruence.
  - destruct (accepted w call); [by subst logs|]. by destruct Hlogs as [args ->].
  - destruct (accepted w call); [by subst logs|].
    destruct Hlogs as [args ->]. by exists args.
Qed.
End WrapperClaims.

(** C9. A call to [reportOutcome] posts to exactly one URL,
    [{base}/v1/events/{eventId}/outcome], where the base is the explicit
    [apiUrl] when given, otherwise [HOOKRELAY_API_URL] of the environment
    when set, otherwise [https://api.hookrelay.io]. *)
Theorem reportOutcome_url {host : Platform} w eventId outcome secret apiUrl :
  url <$> fetches (effects (reportOutcome eventId outcome secret apiUrl) w)
  = [match apiUrl with
     | Some explicit => explicit
     | None =>
         match process_env w !! "HOOKRELAY_API_URL" with
         | Some env => env
         | None => js "https://api.hookrelay.io"
         end
     end ++ js "/v1/events/" ++ eventId ++ js "/outcome"].
Proof.
  unfold effects, run.
  destruct (reportOutcome_run w initial eventId outcome secret apiUrl)
    as (call & logs & Hrun & Hurl & _ & _ & _ & Hlogs).
  rewrite Hrun. cbn [snd after trace initial app].
  assert (fetches logs = []) as Hnone.
  { destruct (accepted w call); [by subst logs|]. by destruct Hlogs as [args ->]. }
  cbn [fetches omap list_omap]. fold (fetches logs). rewrite Hnone. cbn [fmap list_fmap].
  rewrite Hurl. by destruct apiUrl, (process_env w !! "HOOKRELAY_API_URL").
Qed.

(** * The properties on the sample deployment *)

Lemma sign_then_verify_witness :
  Z.abs (now (Sample.world Sample.env Sample.accepting) initial - Sample.time)
    ≤ TIMESTAMP_TOLERANCE_SECONDS
  ∧ signPayload (host := Reference.platform) Sample.time Sample.payload_text Sample.secret
    = Ok (Sample.signature_for Sample.time Sample.payload_text)
  ∧ verifySignature (host := Reference.platform) (String_of_number Sample.time)
      Sample.payload_text (Sample.signature_for Sample.time Sample.payload_text)
      Sample.secret (Sample.world Sample.env Sample.accepting) initial
    = (Ok true, tick initial).
Proof.
  assert (Hskew : Z.abs (now (Sample.world Sample.env Sample.accepting) initial - Sample.time)
                  ≤ TIMESTAMP_TOLERANCE_SECONDS) by (vm_compute; discriminate).
  assert (Hsign : signPayload (host := Reference.platform) Sample.time Sample.payload_text
                    Sample.secret
                  = Ok (Sample.signature_for Sample.time Sample.payload_text))
    by (vm_compute; reflexivity).
  exact (conj Hskew (conj Hsign
           (sign_then_verify (host := Reference.platform) _ _ _ _ _ _ Hskew Hsign))).
Defined.

(** An expired timestamp is rejected although its signature is correct. *)
Lemma verify_rejects_bad_timestamp_witness :
  (parseInt (String_of_number (Sample.time - 600)) = None
   ∨ ∃ ts, parseInt (String_of_number (Sample.time - 600)) = Some ts
           ∧ Z.abs (now (Sample.world Sample.env Sample.accepting) initial - ts)
             > TIMESTAMP_TOLERANCE_SECONDS)
  ∧ verifySignature (host := Reference.platform) (String_of_number (Sample.time - 600))
      Sample.payload_text (Sample.signature_for (Sample.time - 600) Sample.payload_text)
      Sample.secret (Sample.world Sample.env Sample.accepting) initial
    = (Ok false, tick initial).
Proof.
  assert (Hts : parseInt (String_of_number (Sample.time - 600)) = None
                ∨ ∃ ts, parseInt (String_of_number (Sample.time - 600)) = Some ts
                        ∧ Z.abs (now (Sample.world Sample.env Sample.accepting) initial - ts)
                          > TIMESTAMP_TOLERANCE_SECONDS).
  { right. exists (Sample.time - 600). split; vm_compute; reflexivity. }
  exact (conj Hts
           (verify_rejects_bad_timestamp (host := Reference.platform) _ _ _ _ _ _ Hts)).
Defined.

Lemma timingSafeEqual_correct_witness :
  wf_string (js "3a7f") ∧ wf_string (js "3a7e")
  ∧ (length (js "3a7f") ≠ length (js "3a7e") → timingSafeEqual (js "3a7f") (js "3a7e") = false)
  ∧ (length (js "3a7f") = length (js "3a7e") →
     timingSafeEqual_loop (js "3a7f") (js "3a7e") 0 (length (js "3a7f")) 0
     = fold_left Z.lor (zip_with Z.lxor (js "3a7f") (js "3a7e")) 0
     ∧ timingSafeEqual (js "3a7f") (js "3a7e")
       = (fold_left Z.lor (zip_with Z.lxor (js "3a7f") (js "3a7e")) 0 =? 0))
  ∧ (timingSafeEqual (js "3a7f") (js "3a7e") = true ↔ js "3a7f" = js "3a7e").
Proof.
  assert (Ha : wf_string (js "3a7f")) by (repeat constructor; vm_compute; discriminate).
  assert (Hb : wf_string (js "3a7e")) by (repeat constructor; vm_compute; discriminate).
  exact (conj Ha (conj Hb (timingSafeEqual_correct _ _ Ha Hb))).
Defined.


(** The two headers the specification names, verified at time 300: the
    signature over "300.<payload>" is accepted under both spellings, the
    signatures over "0300.<payload>" and "300.9.<payload>" are rejected. *)
Example noncanonical_headers :
  let w := {| process_env := ∅; clock := λ _, 300000; network := λ _, Sample.accepting |} in
  let verify header sig :=
    fst (verifySignature (host := Reference.platform) header Sample.payload_text sig
           Sample.secret w initial) in
  let over text :=
    match signText (host := Reference.platform) text Sample.payload_text Sample.secret with
    | Ok sig => sig
    | Throw _ => []
    end in
  verify (js "0300") (Sample.signature_for 300 Sample.payload_text) = Ok true
  ∧ verify (js "300.9") (Sample.signature_for 300 Sample.payload_text) = Ok true
  ∧ verify (js "0300") (over (js "0300")) = Ok false
  ∧ verify (js "300.9") (over (js "300.9")) = Ok false
  ∧ verify (js "300") (over (js "300")) = Ok true.
Proof. vm_compute. repeat split; reflexivity. Qed.

(** Web Crypto refuses an empty key, so nothing is signed with the empty
    secret; verification of an out-of-tolerance timestamp still answers
    false with it. *)
Example empty_secret :
  (∃ e, signPayload (host := Reference.platform) Sample.time Sample.payload_text [] = Throw e)
  ∧ fst (verifySignature (host := Reference.platform) (js "12") Sample.payload_text
           (js "v1=00") [] (Sample.world Sample.env Sample.accepting) initial) = Ok false.
Proof. split; [eexists|]; vm_compute; reflexivity. Qed.

Lemma missing_headers_first_witness :
  let w := Sample.world Sample.env Sample.accepting in
  let request := {| headers := {[ lowercase HEADERS_PROVIDER := js "stripe" ]};
                    body := Sample.payload_text |} in
  let options := {| provider := js "github"; timeoutMs := None; enforceIdempotency := None;
                    allowReplay := None |} in
  configured w Sample.secret
  ∧ (Headers_get (headers request) HEADERS_EVENT_ID = None
     ∨ Headers_get (headers request) HEADERS_SIGNATURE = None
     ∨ Headers_get (headers request) HEADERS_TIMESTAMP = None)
  ∧ Headers_get (headers request) HEADERS_PROVIDER ≠ Some (provider options)
  ∧ run (withHookRelay (host := Reference.platform) Sample.succeeding options request) w
    = (Ok (Response_json
             (VObject [(js "error", VString (js "Missing required Hook Relay headers"))])
             400),
       initial).
Proof.
  intros w request options.
  assert (Hsecret : configured w Sample.secret) by (vm_compute; reflexivity).
  assert (Hmissing : Headers_get (headers request) HEADERS_EVENT_ID = None
                     ∨ Headers_get (headers request) HEADERS_SIGNATURE = None
                     ∨ Headers_get (headers request) HEADERS_TIMESTAMP = None)
    by (left; vm_compute; reflexivity).
  assert (Hprovider : Headers_get (headers request) HEADERS_PROVIDER ≠ Some (provider options))
    by (vm_compute; discriminate).
  exact (conj Hsecret (conj Hmissing (conj Hprovider
           (missing_headers_first (host := Reference.platform) w Sample.succeeding options
              request Sample.secret Hsecret Hmissing)))).
Defined.

Lemma signature_gate_before_json_witness :
  let w := Sample.world Sample.env Sample.accepting in
  let request := Sample.request (js "stripe") (String_of_number Sample.time)
                   (js "v1=invalidsig") (js "false") (js "not valid json") in
  let options := Sample.options None in
  configured w Sample.secret
  ∧ passes_header_checks options request Sample.eventId (js "v1=invalidsig")
      (String_of_number Sample.time)
  ∧ (fst (run (verifySignature (host := Reference.platform) (String_of_number Sample.time)
                 (body request) (js "v1=invalidsig") Sample.secret) w) = Ok false →
     run (withHookRelay (host := Reference.platform) Sample.succeeding options request) w
     = (Ok (Response_json (VObject [(js "error", VString (js "Invalid signature"))]) 401),
        tick initial))
  ∧ (fst (run (verifySignature (host := Reference.platform) (String_of_number Sample.time)
                 (body request) (js "v1=invalidsig") Sample.secret) w) = Ok true →
     JSON_parse (Platform := Reference.platform) (body request) = None →
     run (withHookRelay (host := Reference.platform) Sample.succeeding options request) w
     = (Ok (Response_json (VObject [(js "error", VString (js "Invalid JSON payload"))]) 400),
        tick initial)).
Proof.
  intros w request options.
  assert (Hsecret : configured w Sample.secret) by (vm_compute; reflexivity).
  assert (Hpass : passes_header_checks options request Sample.eventId (js "v1=invalidsig")
                    (String_of_number Sample.time))
    by (unfold passes_header_checks; split_and!; vm_compute; reflexivity).
  exact (conj Hsecret (conj Hpass
           (signature_gate_before_json (host := Reference.platform) w Sample.succeeding
              options request Sample.secret Sample.eventId (js "v1=invalidsig")
              (String_of_number Sample.time) Hsecret Hpass))).
Defined.

(** The two gates in order, as the repository's tests exercise them: a bad
    signature over a body that is not JSON is answered 401, a good signature
    over the same body 400. *)
Example signature_then_json :
  let w := Sample.world Sample.env Sample.accepting in
  fst (run (withHookRelay (host := Reference.platform) Sample.succeeding (Sample.options None)
              (Sample.request (js "stripe") (String_of_number Sample.time)
                 (js "v1=invalidsig") (js "false") (js "not valid json"))) w)
  = Ok (Response_json (VObject [(js "error", VString (js "Invalid signature"))]) 401)
  ∧ fst (run (withHookRelay (host := Reference.platform) Sample.succeeding
                (Sample.options None) (Sample.delivery (js "false") (js "not valid json"))) w)
    = Ok (Response_json (VObject [(js "error", VString (js "Invalid JSON payload"))]) 400).
Proof. vm_compute. split; reflexivity. Qed.

Lemma replay_gate_witness :
  let w := Sample.world Sample.env Sample.accepting in
  let request := Sample.delivery (js "true") Sample.payload_text in
  let options := Sample.options (Some false) in
  let signature := Sample.signature_for Sample.time Sample.payload_text in
  let timestamp := String_of_number Sample.time in
  let refused :=
    Headers_get (headers request) HEADERS_REPLAYED = Some (js "true")
    ∧ allowReplay options = Some false in
  let refusal :=
    Response_json (VObject [(js "error", VString (js "Replayed events are not allowed"))])
      400 in
  configured w Sample.secret
  ∧ passes_header_checks options request Sample.eventId signature timestamp
  ∧ fst (run (verifySignature (host := Reference.platform) timestamp (body request)
                signature Sample.secret) w) = Ok true
  ∧ JSON_parse (Platform := Reference.platform) (body request) = Some Sample.payload
  ∧ refused
  ∧ (fst (run (withHookRelay (host := Reference.platform) Sample.succeeding options request) w)
     = Ok refusal ↔ refused)
  ∧ (refused →
     effects (withHookRelay (host := Reference.platform) Sample.succeeding options request) w
     = [])
  ∧ (¬ refused →
     ∃ event,
       invocations
         (effects (withHookRelay (host := Reference.platform) Sample.succeeding options
                     request) w) = [event]
       ∧ event_id event = Sample.eventId
       ∧ event_payload event = Sample.payload
       ∧ event_replayed event
         = bool_decide (Headers_get (headers request) HEADERS_REPLAYED = Some (js "true"))).
Proof.
  intros w request options signature timestamp refused refusal.
  assert (Hsecret : configured w Sample.secret) by (vm_compute; reflexivity).
  assert (Hpass : passes_header_checks options request Sample.eventId signature timestamp)
    by (unfold passes_header_checks; split_and!; vm_compute; reflexivity).
  assert (Hvalid : fst (run (verifySignature (host := Reference.platform) timestamp
                               (body request) signature Sample.secret) w) = Ok true)
    by (vm_compute; reflexivity).
  assert (Hjson : JSON_parse (Platform := Reference.platform) (body request)
                  = Some Sample.payload) by (vm_compute; reflexivity).
  assert (Hrefused : refused) by (split; vm_compute; reflexivity).
  exact (conj Hsecret (conj Hpass (conj Hvalid (conj Hjson (conj Hrefused
           (replay_gate (host := Reference.platform) w Sample.succeeding options request
              Sample.secret Sample.eventId signature timestamp Sample.payload
              Hsecret Hpass Hvalid Hjson)))))).
Defined.

(** The replay policy as the repository's tests exercise it: a replayed
    delivery is refused when [allowReplay] is [false], and accepted when it
    is unset or [true]; a replayed header other than "true" is no replay. *)
Example replay_policy :
  let w := Sample.world Sample.env Sample.accepting in
  let status allow replayed :=
    match fst (run (withHookRelay (host := Reference.platform) Sample.succeeding
                      (Sample.options allow) (Sample.delivery replayed Sample.payload_text)) w)
    with
    | Ok response => Some (res_status response)
    | Throw _ => None
    end in
  status (Some false) (js "true") = Some 400
  ∧ status None (js "true") = Some 202
  ∧ status (Some true) (js "true") = Some 202
  ∧ status (Some false) (js "false") = Some 202
  ∧ status (Some false) (js "TRUE") = Some 202
  ∧ status (Some false) (js "1") = Some 202.
Proof. vm_compute. repeat split; reflexivity. Qed.

(** The sample delivery to a callback that throws [Object.create(null)]. *)
Lemma callback_failure_escapes_witness :
  let w := Sample.world Sample.env Sample.accepting in
  let request := Sample.delivery (js "false") Sample.payload_text in
  let options := Sample.options None in
  let event :=
    delivered_event (host := Reference.platform) options request Sample.eventId Sample.payload
      (clock w 1) in
  HandlerCalled event
    ∈ effects (withHookRelay (host := Reference.platform) Sample.throwing_object options
                 request) w
  ∧ Sample.throwing_object event = Throw (Unconvertible Sample.conversion_error)
  ∧ run (withHookRelay (host := Reference.platform) Sample.throwing_object options request) w
    = (Throw Sample.conversion_error, {| ticks := 4; trace := [HandlerCalled event] |}).
Proof.
  intros w request options event.
  assert (Hin : HandlerCalled event
                ∈ effects (withHookRelay (host := Reference.platform) Sample.throwing_object
                             options request) w)
    by (vm_compute; apply list_elem_of_here).
  assert (Hthrow : Sample.throwing_object event = Throw (Unconvertible Sample.conversion_error))
    by reflexivity.
  exact (conj Hin (conj Hthrow
           (callback_failure_escapes (host := Reference.platform) w Sample.throwing_object
              options request event Sample.conversion_error Hin Hthrow))).
Defined.

Lemma callback_success_reported_witness :
  let w := Sample.world Sample.env Sample.refusing in
  let request := Sample.delivery (js "false") Sample.payload_text in
  let options := Sample.options None in
  let event :=
    delivered_event (host := Reference.platform) options request Sample.eventId Sample.payload
      (clock w 1) in
  HandlerCalled event
    ∈ effects (withHookRelay (host := Reference.platform) Sample.succeeding options request) w
  ∧ Sample.succeeding event = Ok tt
  ∧ ∃ call,
      fst (run (withHookRelay (host := Reference.platform) Sample.succeeding options request) w)
      = Ok (Response_json
              (VObject [(js "accepted", VBool true);
                        (js "eventId", VString (event_id event))]) 202)
      ∧ Headers_get (headers request) HEADERS_EVENT_ID = Some (event_id event)
      ∧ fetches
          (effects (withHookRelay (host := Reference.platform) Sample.succeeding options
                      request) w) = [call]
      ∧ method call = js "POST"
      ∧ url call = default DEFAULT_API_URL (process_env w !! "HOOKRELAY_API_URL")
                   ++ js "/v1/events/" ++ event_id event ++ js "/outcome"
      ∧ fetch_body call
        = JSON_stringify (Platform := Reference.platform)
            {| status := success; durationMs := clock w 3 - clock w 2; error := None |}
      ∧ (if accepted w call
         then effects (withHookRelay (host := Reference.platform) Sample.succeeding options
                         request) w
              = [HandlerCalled event; Fetched call]
         else ∃ args,
                effects (withHookRelay (host := Reference.platform) Sample.succeeding options
                           request) w
                = [HandlerCalled event; Fetched call; ConsoleError args;
                   ConsoleError
                     [LogString
                        (js "[HookRelay] Failed to report success outcome for event "
                         ++ event_id event)]]).
Proof.
  intros w request options event.
  assert (Hin : HandlerCalled event
                ∈ effects (withHookRelay (host := Reference.platform) Sample.succeeding options
                             request) w)
    by (vm_compute; apply list_elem_of_here).
  assert (Hdone : Sample.succeeding event = Ok tt) by reflexivity.
  exact (conj Hin (conj Hdone
           (callback_success_reported (host := Reference.platform) w Sample.succeeding options
              request event Hin Hdone))).
Defined.

(** The outcomes as the repository's tests exercise them: status and report
    body for a callback that completes, one that throws an [Error], and one
    that throws a string, whether or not the network accepts the report. *)
Example outcomes :
  Sample.observe Sample.succeeding Sample.accepting
  = (Some 202, [Sample.report (js "success") []])
  ∧ Sample.observe Sample.succeeding Sample.refusing
    = Sample.observe Sample.succeeding Sample.accepting
  ∧ Sample.observe Sample.succeeding
      (Throw (ErrorInstance (js "TypeError") (js "fetch failed") None))
    = Sample.observe Sample.succeeding Sample.accepting
  ∧ Sample.observe Sample.failing Sample.refusing
    = (Some 500,
       [Sample.report (js "failure") (Sample.error_text (js "Database connection failed"))])
  ∧ Sample.observe Sample.throwing_text Sample.accepting
    = (Some 500, [Sample.report (js "failure") (Sample.error_text (js "boom"))]).
Proof. vm_compute. repeat split; reflexivity. Qed.

(** The endpoint of a report in the three configurations of the
    repository's tests. *)
Example report_endpoints :
  let posted env apiUrl :=
    url <$> fetches
      (effects (reportOutcome (host := Reference.platform) Sample.eventId
                  {| status := success; durationMs := 100; error := None |}
                  Sample.secret apiUrl)
         (Sample.world env Sample.accepting)) in
  let custom : gmap string jsstring := {[ "HOOKRELAY_API_URL" := js "https://env.api.com" ]} in
  posted custom (Some (js "https://explicit.api.com"))
  = [js "https://explicit.api.com/v1/events/evt_test123/outcome"]
  ∧ posted custom None = [js "https://env.api.com/v1/events/evt_test123/outcome"]
  ∧ posted ∅ None = [js "https://api.hookrelay.io/v1/events/evt_test123/outcome"]
  ∧ posted ∅ (Some []) = [js "/v1/events/evt_test123/outcome"].
Proof. vm_compute. repeat split; reflexivity. Qed.

(** An unconfigured handler throws its configuration error, whatever the
    request. *)
Example unconfigured :
  fst (run (withHookRelay (host := Reference.platform) Sample.succeeding (Sample.options None)
              (Sample.delivery (js "false") Sample.payload_text))
         (Sample.world ∅ Sample.accepting))
  = Throw (ErrorInstance (js "HookRelayConfigError")
             (js "HOOKRELAY_SECRET environment variable is not configured") None).
Proof. vm_compute. reflexivity. Qed.

(** ** The building blocks on concrete inputs *)

Example parseInt_0300 : parseInt (js "0300") = Some 300.
Proof. reflexivity. Qed.

Example parseInt_300_9 : parseInt (js "300.9") = Some 300.
Proof. reflexivity. Qed.

Example parseInt_signed : parseInt (js "  -42abc") = Some (-42).
Proof. reflexivity. Qed.

Example parseInt_NaN : parseInt (js "abc") = None ∧ parseInt [] = None.
Proof. split; reflexivity. Qed.

Example String_of_number_ex :
  String_of_number 1700000000 = js "1700000000" ∧ String_of_number (-5) = js "-5"
  ∧ String_of_number 0 = js "0".
Proof. repeat split; reflexivity. Qed.

Example timingSafeEqual_ex :
  timingSafeEqual (js "abc") (js "abc") = true
  ∧ timingSafeEqual (js "abc") (js "abd") = false
  ∧ timingSafeEqual (js "abc") (js "ab") = false
  ∧ timingSafeEqual [] [] = true
  ∧ timingSafeEqual [256] [0] = false.
Proof. repeat split; reflexivity. Qed.

Example hexDigest_ex : hexDigest [Byte.x00; Byte.x0a; Byte.xff; Byte.x7b] = js "000aff7b".
Proof. reflexivity. Qed.

(** The reference HMAC on the second test case of RFC 4231, and the
    reference encoder on a string with two-, three- and four-byte
    characters and a lone surrogate. *)
Example reference_hmac :
  hexDigest
    (Reference.byte_of_Z
       <$> Reference.hmac_sha256 (js "Jefe") (js "what do ya want for nothing?"))
  = js "5bdcc146bf60754e6a042426089575c75a003f089d2739839dec58b964ec3843".
Proof. vm_compute. reflexivity. Qed.

Example reference_encode :
  byte_value <$> Reference.encode [104; 233; 8364; 55357; 56832; 55357]
  = [104; 195; 169; 226; 130; 172; 240; 159; 152; 128; 239; 191; 189].
Proof. vm_compute. reflexivity. Qed.

(** The signature of the sample delivery, as any HMAC-SHA256
    implementation computes it. *)
Example sample_signature :
  Sample.signature_for Sample.time Sample.payload_text
  = js "v1=5350a5271068366994669897bdf3a22196e3206e8039ebd43156cb7460a1dc77".
Proof. vm_compute. reflexivity. Qed.

(** * Further properties of the signature module *)


(** X2. The hex rendering of a digest loses nothing: two digests have the
    same rendering exactly when they are the same bytes, so two signatures
    are equal exactly when their HMAC digests are. *)
Theorem hexDigest_injective bytes bytes' :
  (hexDigest bytes = hexDigest bytes' ↔ bytes = bytes')
  ∧ (SIGNATURE_VERSION ++ js "=" ++ hexDigest bytes
     = SIGNATURE_VERSION ++ js "=" ++ hexDigest bytes' ↔ bytes = bytes').
Proof.
  assert (Hinj : hexDigest bytes = hexDigest bytes' ↔ bytes = bytes')
    by (split; [apply hexDigest_inj|by intros ->]).
  split; [done|]. rewrite <- Hinj. split; [|by intros ->].
  intros Heq. by do 2 apply app_inv_head in Heq.
Qed.


Section VerificationProperties.
Context {host : Platform}.

(** X4. Inside the tolerance, when the expected signature can be computed,
    [verifySignature] accepts a header exactly when it is that signature,
    character for character: any other header (another digit, another
    case, a shorter or longer digest, another prefix) is refused. *)
Theorem verify_accepts_exactly w st timestamp ts payload secret signatureHeader sig :
  parseInt timestamp = Some ts →
  Z.abs (now w st - ts) ≤ TIMESTAMP_TOLERANCE_SECONDS →
  signPayload ts payload secret = Ok sig →
  wf_string signatureHeader →
  verifySignature timestamp payload signatureHeader secret w st
  = (Ok (bool_decide (signatureHeader = sig)), tick st).
Proof.
  intros Hts Hskew Hsign Hwf.
  destruct (signPayload_inv ts payload secret sig Hsign) as (digest & Hmac & ->).
  destruct (startsWith signatureHeader (js "v1=")) eqn:Hprefix.
  - destruct (startsWith_inv _ _ Hprefix) as [expected ->].
    rewrite (verify_in_window w st timestamp ts payload digest expected secret) by done.
    do 2 f_equal.
    assert (Hexp : wf_string expected) by (by apply Forall_app in Hwf as [_ ?]).
    destruct (timingSafeEqual (hexDigest digest) expected) eqn:Heq.
    + apply timingSafeEqual_eq in Heq; auto using hexDigest_wf. subst expected.
      by rewrite bool_decide_eq_true_2.
    + rewrite bool_decide_eq_false_2; [done|]. intros Hsame.
      apply app_inv_head in Hsame. subst expected.
      assert (timingSafeEqual (hexDigest digest) (hexDigest digest) = true)
        by (apply timingSafeEqual_eq; auto using hexDigest_wf).
      congruence.
  - rewrite verify_no_prefix by done. do 2 f_equal.
    rewrite bool_decide_eq_false_2; [done|]. intros ->.
    by rewrite startsWith_app in Hprefix.
Qed.

(** X5. A signature header that is not of the form "v1=..." is refused
    with [false] whatever the timestamp, the payload and the secret are,
    and without signing anything: the answer does not depend on the host's
    HMAC, which may even reject. *)
Theorem verify_requires_version w st timestamp payload signatureHeader secret :
  (∀ rest, signatureHeader ≠ js "v1=" ++ rest) →
  verifySignature timestamp payload signatureHeader secret w st = (Ok false, tick st).
Proof.
  intros Hform. apply verify_no_prefix.
  destruct (startsWith signatureHeader (js "v1=")) eqn:Hprefix; [|done].
  destruct (startsWith_inv _ _ Hprefix) as [rest ->]. by destruct (Hform rest).
Qed.

(** X6. [verifySignature] reads the clock once and does nothing else to
    the outside, whatever it answers; and it throws exactly when the
    timestamp is within the tolerance, the header has the version prefix,
    and signing throws: the error is then the one of signing. *)
Theorem verify_effects_and_errors w st timestamp payload signatureHeader secret :
  snd (verifySignature timestamp payload signatureHeader secret w st)
  = {| ticks := S (ticks st); trace := trace st |}
  ∧ ∀ e,
      fst (verifySignature timestamp payload signatureHeader secret w st) = Throw e
      ↔ ∃ ts, parseInt timestamp = Some ts
              ∧ Z.abs (now w st - ts) ≤ TIMESTAMP_TOLERANCE_SECONDS
              ∧ startsWith signatureHeader (js "v1=") = true
              ∧ signPayload ts payload secret = Throw e.
Proof.
  split; [apply verify_state|]. intros e. split.
  - unfold verifySignature, crypto_verifySignature, bind, Date_now, ret, await, now.
    destruct (parseInt timestamp) as [ts|]; [|done].
    destruct (Z.abs _ >? _) eqn:E; [done|].
    rewrite version_prefix.
    destruct (startsWith signatureHeader (js "v1=")) eqn:Hprefix; [|done]. cbn [negb].
    destruct (signPayload ts payload secret) as [sig|e'] eqn:Hsign; [done|].
    cbn [fst]. intros [= ->]. exists ts. repeat split; try done. lia.
  - intros (ts & Hts & Hskew & Hprefix & Hsign).
    by rewrite (verify_signing_error w st timestamp ts payload signatureHeader secret e).
Qed.
End VerificationProperties.

(** * Further properties of outcome reporting and of the wrapper *)

(** X7. [reportOutcome] never throws. It issues one POST with a JSON
    content type, the secret as bearer token and the serialized outcome as
    body; it answers [true] for a response whose [ok] is set and logs
    nothing; for any other response it answers [false] after logging the
    status and status text, and for a rejected [fetch] it answers [false]
    after logging the error. *)
Theorem reportOutcome_behaviour {host : Platform} w eventId outcome secret apiUrl :
  ∃ call,
    method call = js "POST"
    ∧ fetch_headers call = [("Content-Type", js "application/json");
                            ("Authorization", js "Bearer " ++ secret)]
    ∧ fetch_body call = JSON_stringify outcome
    ∧ run (reportOutcome eventId outcome secret apiUrl) w
      = match network w call with
        | Ok response =>
            if ok response then (Ok true, {| ticks := 0; trace := [Fetched call] |})
            else (Ok false,
                  {| ticks := 0;
                     trace := [Fetched call;
                               ConsoleError
                                 [LogString (js "[HookRelay] Failed to report outcome: "
                                             ++ String_of_number (response_status response)
                                             ++ js " " ++ statusText response)]] |})
        | Throw error =>
            (Ok false,
             {| ticks := 0;
                trace := [Fetched call;
                          ConsoleError
                            [LogString (js "[HookRelay] Failed to report outcome:");
                             LogThrown error]] |})
        end.
Proof.
  exists {| url := default (default DEFAULT_API_URL (process_env w !! "HOOKRELAY_API_URL"))
                     apiUrl ++ js "/v1/events/" ++ eventId ++ js "/outcome";
            method := js "POST";
            fetch_headers := [("Content-Type", js "application/json");
                              ("Authorization", js "Bearer " ++ secret)];
            fetch_body := JSON_stringify outcome |}.
  repeat split.
  cbv [run reportOutcome bind getenv try_catch fetch emit console_error ret initial].
  cbn [ticks trace app].
  destruct (network w _) as [response|e]; [|done].
  by destruct (ok response).
Qed.

Section WrapperProperties.
Context {host : Platform}.
Variables (w : World) (handler : HookRelayHandler) (options : HookRelayOptions)
          (request : Request).

(** X8. With [HOOKRELAY_SECRET] unset or empty the handler throws a
    [HookRelayConfigError] for every request, before it reads a header or
    the clock: no response, no callback, no report. *)
Theorem unconfigured_throws :
  process_env w !! "HOOKRELAY_SECRET" = None
  ∨ process_env w !! "HOOKRELAY_SECRET" = Some [] →
  run (withHookRelay handler options request) w
  = (Throw (ErrorInstance (js "HookRelayConfigError")
              (js "HOOKRELAY_SECRET environment variable is not configured")
              (Error_stack (js "HOOKRELAY_SECRET environment variable is not configured"))),
     initial).
Proof.
  intros Hsecret. unfold run, withHookRelay, hookRelayHandler. cbv [bind getenv throw].
  by destruct Hsecret as [-> | ->].
Qed.

(** X9. Under a configured secret the missing-headers response is given
    exactly when the event-id, the signature or the timestamp header is
    absent or empty: an empty value counts as missing, and no other path
    gives this response. *)
Theorem missing_headers_exactly secret :
  configured w secret →
  fst (run (withHookRelay handler options request) w)
  = Ok (Response_json
          (VObject [(js "error", VString (js "Missing required Hook Relay headers"))]) 400)
  ↔ truthy (Headers_get (headers request) HEADERS_EVENT_ID) = None
    ∨ truthy (Headers_get (headers request) HEADERS_SIGNATURE) = None
    ∨ truthy (Headers_get (headers request) HEADERS_TIMESTAMP) = None.
Proof.
  intros Hsecret. split.
  - pose proof (run_shape w handler options request) as Hshape.
    destruct Hshape as [Hnone|? ? Hmissing| | | | | | |? ? ? ? ? error];
      cbn [fst]; intros Hres; try (vm_compute in Hres; discriminate).
    + done.
    + unfold response_of in Hres. destruct error; vm_compute in Hres; discriminate.
  - intros Hmissing. unfold run, withHookRelay.
    by rewrite (gate_missing w handler options request initial secret).
Qed.

(** X10. Under a configured secret, a request with its three required
    headers whose provider header is absent or differs from the configured
    provider is answered 400 with a message naming the expected provider
    and the received one, "unknown" when there is none; this happens
    before the clock is read, hence before any verification. *)
Theorem provider_mismatch secret eventId signature timestamp :
  configured w secret →
  truthy (Headers_get (headers request) HEADERS_EVENT_ID) = Some eventId →
  truthy (Headers_get (headers request) HEADERS_SIGNATURE) = Some signature →
  truthy (Headers_get (headers request) HEADERS_TIMESTAMP) = Some timestamp →
  Headers_get (headers request) HEADERS_PROVIDER ≠ Some (provider options) →
  run (withHookRelay handler options request) w
  = (Ok (Response_json
           (VObject
              [(js "error",
                VString
                  (js "Expected provider '" ++ provider options ++ js "', got '"
                   ++ match Headers_get (headers request) HEADERS_PROVIDER with
                      | Some received => received
                      | None => js "unknown"
                      end ++ js "'"))]) 400),
     initial).
Proof.
  intros Hsecret He Hs Ht Hp. unfold run, withHookRelay, hookRelayHandler.
  cbv [bind getenv ret]. rewrite Hsecret, He, Hs, Ht.
  rewrite bool_decide_eq_false_2 by done. cbn [negb].
  by destruct (Headers_get (headers request) HEADERS_PROVIDER).
Qed.

(** X11. Nothing happens to the outside unless the request passed every
    gate: if a run invokes the callback, sends a report or logs anything,
    then the secret is configured, the required headers are present, the
    provider matches, the signature verified, the body parsed and the
    replay policy allowed the request. *)
Theorem nothing_without_valid_signature :
  effects (withHookRelay handler options request) w ≠ [] →
  ∃ secret eventId signature timestamp payload,
    configured w secret
    ∧ passes_header_checks options request eventId signature timestamp
    ∧ fst (run (verifySignature timestamp (body request) signature secret) w) = Ok true
    ∧ JSON_parse (body request) = Some payload
    ∧ ¬ replay_refused options request.
Proof.
  unfold effects. intros Hsome.
  pose proof (run_shape w handler options request) as Hshape.
  destruct Hshape as [| | | | | | |secret eventId signature timestamp payload raised
                                   Hsecret Hpass Hv Hjson Hr
                              |secret eventId signature timestamp payload error call logs
                                   Hsecret Hpass Hv Hjson Hr]; cbn [snd] in Hsome; try done.
  all: exists secret, eventId, signature, timestamp, payload.
  all: unfold run; by rewrite Hv.
Qed.

(** X12. A run invokes the callback at most once and sends at most one
    report, after the callback. The report follows the callback unless the
    callback threw a value that the wrapper cannot record: then the
    invocation is the only effect and the wrapper throws what the
    conversion threw. A report is followed by nothing, or by two console
    errors when it was not accepted. *)
Theorem effects_in_order :
  effects (withHookRelay handler options request) w = []
  ∨ (∃ event raised,
       handler event = Throw (Unconvertible raised)
       ∧ run (withHookRelay handler options request) w
         = (Throw raised, {| ticks := 4; trace := [HandlerCalled event] |}))
  ∨ ∃ event call logs,
      effects (withHookRelay handler options request) w
      = HandlerCalled event :: Fetched call :: logs
      ∧ (∀ raised, handler event ≠ Throw (Unconvertible raised))
      ∧ (if accepted w call then logs = []
         else ∃ inner outer, logs = [ConsoleError inner; ConsoleError outer]).
Proof.
  unfold effects.
  pose proof (run_shape w handler options request) as Hshape.
  destruct Hshape as [| | | | | | |secret eventId signature timestamp payload raised
                                   ? ? ? ? ? event Hrec
                              |secret eventId signature timestamp payload error call logs
                                   ? ? ? ? ? event Hrec ? ? ? ? Hlogs]; cbn [snd];
    try (by left).
  - right. left. exists event, raised. split; [by apply recorded_throw|done].
  - right. right. exists event, call, logs. split; [done|]. split.
    + intros raised Hthrow. rewrite Hthrow in Hrec. by cbn [recorded errorInfo_of] in Hrec.
    + destruct (accepted w call); [done|].
      destruct Hlogs as [args ->]. by eexists _, _.
Qed.

(** X13. How a run ends. A response is 202 exactly when the callback was
    invoked and completed, 500 exactly when it was invoked and threw a
    value that the wrapper could record, and otherwise 400 or 401 with no
    effect at all. When the wrapper throws, either nothing has happened, or
    the callback was invoked and threw a value that the wrapper cannot
    record, and that invocation is the only effect. *)
Theorem responses_classified :
  match fst (run (withHookRelay handler options request) w) with
  | Ok response =>
      (res_status response = 202
       ∧ ∃ event, invocations (effects (withHookRelay handler options request) w) = [event]
                  ∧ handler event = Ok tt)
      ∨ (res_status response = 500
         ∧ ∃ event e info,
             invocations (effects (withHookRelay handler options request) w) = [event]
             ∧ handler event = Throw e
             ∧ errorInfo_of e = Ok info)
      ∨ ((res_status response = 400 ∨ res_status response = 401)
         ∧ effects (withHookRelay handler options request) w = [])
  | Throw raised =>
      effects (withHookRelay handler options request) w = []
      ∨ ∃ event,
          effects (withHookRelay handler options request) w = [HandlerCalled event]
          ∧ handler event = Throw (Unconvertible raised)
  end.
Proof.
  unfold effects.
  pose proof (run_shape w handler options request) as Hshape.
  destruct Hshape as [| | | | | | |secret eventId signature timestamp payload raised
                                   ? ? ? ? ? event Hrec
                              |secret eventId signature timestamp payload error call logs
                                   ? ? ? ? ? event Hrec ? ? ? ? Hlogs]; cbn [fst snd];
    try (by left); try (right; right; split; [by (left + right)|done]).
  - right. exists event. split; [done|]. by apply recorded_throw.
  - assert (Hinv : invocations (HandlerCalled event :: Fetched call :: logs) = [event]).
    { destruct (accepted w call); [by subst logs|]. by destruct Hlogs as [args ->]. }
    apply recorded_ok in Hrec. destruct error as [info|]; cbn [response_of].
    + destruct Hrec as (e & Hcall & Hinfo). right. left. split; [done|].
      by exists event, e, info.
    + left. split; [done|]. by exists event.
Qed.

(** X14. The [providerEventId] of the event a callback receives is never
    [undefined] or [null]. For the provider "stripe" and a payload that is
    an object with an [id] property that is neither [undefined] nor
    [null], it is that property, whatever its type; in every other case
    (another provider, a payload that is no object, an object without such
    a property) it is the relay's event id. *)
Theorem providerEventId_fallback event :
  HandlerCalled event ∈ effects (withHookRelay handler options request) w →
  event_providerEventId event ≠ VUndefined
  ∧ event_providerEventId event ≠ VNull
  ∧ (∀ fields,
       provider options = js "stripe" →
       event_payload event = VObject fields →
       lookup_field (js "id") fields ≠ VUndefined →
       lookup_field (js "id") fields ≠ VNull →
       event_providerEventId event = lookup_field (js "id") fields)
  ∧ (∀ fields,
       event_payload event = VObject fields →
       lookup_field (js "id") fields = VUndefined ∨ lookup_field (js "id") fields = VNull →
       event_providerEventId event = VString (event_id event))
  ∧ ((∀ fields, event_payload event ≠ VObject fields) →
     event_providerEventId event = VString (event_id event))
  ∧ (provider options ≠ js "stripe" →
     event_providerEventId event = VString (event_id event)).
Proof.
  intros Hin.
  destruct (invoked_inv w handler options request event Hin)
    as (secret & eventId & signature & timestamp & payload & _ & _ & _ & _ & _ & ->).
  cbn [delivered_event event_providerEventId event_id event_payload].
  destruct (nullish_cases (extractProviderEventId (provider options) payload)
              (VString eventId)) as (Hu & Hn & _); [done..|].
  split_and!; try done.
  - intros fields -> -> Hid Hid'. rewrite extract_stripe_object.
    by destruct (lookup_field (js "id") fields).
  - intros fields -> Hid.
    destruct (extract_cases (provider options) (VObject fields))
      as [->|(_ & fields' & [= <-] & ->)]; [done|].
    by destruct Hid as [-> | ->].
  - intros Hnot. by rewrite extract_not_object.
  - intros Hp. by rewrite extract_other_provider.
Qed.

(** X15. The event a callback receives mirrors the request: its id is the
    (non-empty) event-id header, its provider the provider header and the
    configured provider, its payload the parsed body, its time of receipt
    the second reading of the clock. Its attempt is 1 when the attempt
    header is absent or empty, and otherwise what [parseInt] makes of it,
    [NaN] included, where the header is not a number beyond 2^53 in
    magnitude (which [parseInt] would round). *)
Theorem event_mirrors_request event :
  HandlerCalled event ∈ effects (withHookRelay handler options request) w →
  (∀ text n, Headers_get (headers request) HEADERS_ATTEMPT = Some text →
             parseInt text = Some n → Z.abs n ≤ 2 ^ 53) →
  Headers_get (headers request) HEADERS_EVENT_ID = Some (event_id event)
  ∧ event_id event ≠ []
  ∧ Headers_get (headers request) HEADERS_PROVIDER = Some (event_provider event)
  ∧ event_provider event = provider options
  ∧ JSON_parse (body request) = Some (event_payload event)
  ∧ event_receivedAt event = Date_toISOString (clock w 1)
  ∧ event_attempt event
    = match Headers_get (headers request) HEADERS_ATTEMPT with
      | None | Some [] => Some 1
      | Some text => parseInt text
      end.
Proof.
  intros Hin _.
  destruct (invoked_inv w handler options request event Hin)
    as (secret & eventId & signature & timestamp & payload
        & _ & (He & _ & _ & Hp) & _ & Hjson & _ & ->).
  cbn [delivered_event event_id event_provider event_payload event_receivedAt event_attempt].
  unfold truthy in He.
  destruct (Headers_get (headers request) HEADERS_EVENT_ID) as [[|c s]|]; try done.
  injection He as <-. repeat split; try done.
  by destruct (Headers_get (headers request) HEADERS_ATTEMPT) as [[|c' s']|].
Qed.

(** X16. Every report a run sends is authenticated with the configured
    secret: it carries the header [Authorization: Bearer <secret>] with the
    value of [HOOKRELAY_SECRET], and a JSON content type. *)
Theorem report_authenticated call :
  Fetched call ∈ effects (withHookRelay handler options request) w →
  ∃ secret,
    process_env w !! "HOOKRELAY_SECRET" = Some secret
    ∧ secret ≠ []
    ∧ fetch_headers call = [("Content-Type", js "application/json");
                            ("Authorization", js "Bearer " ++ secret)].
Proof.
  unfold effects. intros Hin.
  pose proof (run_shape w handler options request) as Hshape.
  destruct Hshape as [| | | | | | |secret eventId signature timestamp payload raised
                              |secret eventId signature timestamp payload error call' logs
                                   Hsecret ? ? ? ? event ? ? ? Hh ? Hlogs]; cbn [snd] in Hin;
    try (by apply elem_of_nil in Hin).
  { apply elem_of_cons in Hin as [?|Hin]; [done|]. by apply elem_of_nil in Hin. }
  assert (call = call') as ->.
  { apply elem_of_cons in Hin as [?|Hin]; [done|].
    apply elem_of_cons in Hin as [[= ->]|Hin]; [done|].
    destruct (accepted w call'); [subst logs; by apply elem_of_nil in Hin|].
    destruct Hlogs as [args ->].
    apply elem_of_cons in Hin as [?|Hin]; [done|].
    apply elem_of_cons in Hin as [?|Hin]; [done|]. by apply elem_of_nil in Hin. }
  exists secret. unfold configured, truthy in Hsecret.
  destruct (process_env w !! "HOOKRELAY_SECRET") as [[|c s]|]; try done.
  injection Hsecret as <-. done.
Qed.
End WrapperProperties.

(** * The further properties on the sample deployment *)



(** The sample signature with its last digit changed is refused. *)
Lemma verify_accepts_exactly_witness :
  let w := Sample.world Sample.env Sample.accepting in
  let header := js "v1=5350a5271068366994669897bdf3a22196e3206e8039ebd43156cb7460a1dc78" in
  let sig := Sample.signature_for Sample.time Sample.payload_text in
  parseInt (String_of_number Sample.time) = Some Sample.time
  ∧ Z.abs (now w initial - Sample.time) ≤ TIMESTAMP_TOLERANCE_SECONDS
  ∧ signPayload (host := Reference.platform) Sample.time Sample.payload_text Sample.secret
    = Ok sig
  ∧ wf_string header
  ∧ verifySignature (host := Reference.platform) (String_of_number Sample.time)
      Sample.payload_text header Sample.secret w initial
    = (Ok (bool_decide (header = sig)), tick initial).
Proof.
  intros w header sig.
  assert (Hts : parseInt (String_of_number Sample.time) = Some Sample.time)
    by (vm_compute; reflexivity).
  assert (Hskew : Z.abs (now w initial - Sample.time) ≤ TIMESTAMP_TOLERANCE_SECONDS)
    by (vm_compute; discriminate).
  assert (Hsign : signPayload (host := Reference.platform) Sample.time Sample.payload_text
                    Sample.secret = Ok sig) by (vm_compute; reflexivity).
  assert (Hwf : wf_string header) by (repeat constructor; vm_compute; discriminate).
  exact (conj Hts (conj Hskew (conj Hsign (conj Hwf
           (verify_accepts_exactly (host := Reference.platform) w initial _ _ _ _ _ _
              Hts Hskew Hsign Hwf))))).
Defined.

(** A header with the prefix in upper case is refused. *)
Lemma verify_requires_version_witness :
  (∀ rest, js "V1=5350a527" ≠ js "v1=" ++ rest)
  ∧ verifySignature (host := Reference.platform) (String_of_number Sample.time)
      Sample.payload_text (js "V1=5350a527") Sample.secret
      (Sample.world Sample.env Sample.accepting) initial
    = (Ok false, tick initial).
Proof.
  assert (Hform : ∀ rest, js "V1=5350a527" ≠ js "v1=" ++ rest)
    by (intros rest Heq; apply (f_equal head) in Heq; vm_compute in Heq; discriminate).
  exact (conj Hform
           (verify_requires_version (host := Reference.platform) _ _ _ _ _ _ Hform)).
Defined.

(** An empty secret is no secret. *)
Lemma unconfigured_throws_witness :
  let w := Sample.world {[ "HOOKRELAY_SECRET" := [] ]} Sample.accepting in
  let request := Sample.delivery (js "false") Sample.payload_text in
  (process_env w !! "HOOKRELAY_SECRET" = None ∨ process_env w !! "HOOKRELAY_SECRET" = Some [])
  ∧ run (withHookRelay (host := Reference.platform) Sample.succeeding (Sample.options None)
           request) w
    = (Throw (ErrorInstance (js "HookRelayConfigError")
                (js "HOOKRELAY_SECRET environment variable is not configured")
                (Error_stack (Platform := Reference.platform)
                   (js "HOOKRELAY_SECRET environment variable is not configured"))),
       initial).
Proof.
  intros w request.
  assert (Hsecret : process_env w !! "HOOKRELAY_SECRET" = None
                    ∨ process_env w !! "HOOKRELAY_SECRET" = Some [])
    by (right; vm_compute; reflexivity).
  exact (conj Hsecret
           (unconfigured_throws (host := Reference.platform) w Sample.succeeding
              (Sample.options None) request Hsecret)).
Defined.

(** A request whose signature header is present but empty. *)
Lemma missing_headers_exactly_witness :
  let w := Sample.world Sample.env Sample.accepting in
  let request :=
    Sample.request (js "stripe") (String_of_number Sample.time) [] (js "false")
      Sample.payload_text in
  configured w Sample.secret
  ∧ truthy (Headers_get (headers request) HEADERS_SIGNATURE) = None
  ∧ (fst (run (withHookRelay (host := Reference.platform) Sample.succeeding
                 (Sample.options None) request) w)
     = Ok (Response_json
             (VObject [(js "error", VString (js "Missing required Hook Relay headers"))])
             400)
     ↔ truthy (Headers_get (headers request) HEADERS_EVENT_ID) = None
       ∨ truthy (Headers_get (headers request) HEADERS_SIGNATURE) = None
       ∨ truthy (Headers_get (headers request) HEADERS_TIMESTAMP) = None).
Proof.
  intros w request.
  assert (Hsecret : configured w Sample.secret) by (vm_compute; reflexivity).
  assert (Hempty : truthy (Headers_get (headers request) HEADERS_SIGNATURE) = None)
    by (vm_compute; reflexivity).
  exact (conj Hsecret (conj Hempty
           (missing_headers_exactly (host := Reference.platform) w Sample.succeeding
              (Sample.options None) request Sample.secret Hsecret))).
Defined.

(** A Stripe delivery to a handler configured for GitHub. *)
Lemma provider_mismatch_witness :
  let w := Sample.world Sample.env Sample.accepting in
  let request := Sample.delivery (js "false") Sample.payload_text in
  let options := {| provider := js "github"; timeoutMs := None; enforceIdempotency := None;
                    allowReplay := None |} in
  let signature := Sample.signature_for Sample.time Sample.payload_text in
  configured w Sample.secret
  ∧ truthy (Headers_get (headers request) HEADERS_EVENT_ID) = Some Sample.eventId
  ∧ truthy (Headers_get (headers request) HEADERS_SIGNATURE) = Some signature
  ∧ truthy (Headers_get (headers request) HEADERS_TIMESTAMP)
    = Some (String_of_number Sample.time)
  ∧ Headers_get (headers request) HEADERS_PROVIDER ≠ Some (provider options)
  ∧ run (withHookRelay (host := Reference.platform) Sample.succeeding options request) w
    = (Ok (Response_json
             (VObject
                [(js "error",
                  VString
                    (js "Expected provider '" ++ provider options ++ js "', got '"
                     ++ match Headers_get (headers request) HEADERS_PROVIDER with
                        | Some received => received
                        | None => js "unknown"
                        end ++ js "'"))]) 400),
       initial).
Proof.
  intros w request options signature.
  assert (Hsecret : configured w Sample.secret) by (vm_compute; reflexivity).
  assert (He : truthy (Headers_get (headers request) HEADERS_EVENT_ID) = Some Sample.eventId)
    by (vm_compute; reflexivity).
  assert (Hs : truthy (Headers_get (headers request) HEADERS_SIGNATURE) = Some signature)
    by (vm_compute; reflexivity).
  assert (Ht : truthy (Headers_get (headers request) HEADERS_TIMESTAMP)
               = Some (String_of_number Sample.time)) by (vm_compute; reflexivity).
  assert (Hp : Headers_get (headers request) HEADERS_PROVIDER ≠ Some (provider options))
    by (vm_compute; discriminate).
  exact (conj Hsecret (conj He (conj Hs (conj Ht (conj Hp
           (provider_mismatch (host := Reference.platform) w Sample.succeeding options
              request Sample.secret Sample.eventId signature (String_of_number Sample.time)
              Hsecret He Hs Ht Hp)))))).
Defined.

Lemma nothing_without_valid_signature_witness :
  let w := Sample.world Sample.env Sample.accepting in
  let request := Sample.delivery (js "false") Sample.payload_text in
  let options := Sample.options None in
  effects (withHookRelay (host := Reference.platform) Sample.succeeding options request) w
  ≠ []
  ∧ ∃ secret eventId signature timestamp payload,
      configured w secret
      ∧ passes_header_checks options request eventId signature timestamp
      ∧ fst (run (verifySignature (host := Reference.platform) timestamp (body request)
                    signature secret) w) = Ok true
      ∧ JSON_parse (Platform := Reference.platform) (body request) = Some payload
      ∧ ¬ replay_refused options request.
Proof.
  intros w request options.
  assert (Hsome : effects (withHookRelay (host := Reference.platform) Sample.succeeding
                             options request) w ≠ []) by (vm_compute; discriminate).
  exact (conj Hsome
           (nothing_without_valid_signature (host := Reference.platform) w Sample.succeeding
              options request Hsome)).
Defined.

Lemma providerEventId_fallback_witness :
  let w := Sample.world Sample.env Sample.accepting in
  let request := Sample.delivery (js "false") Sample.payload_text in
  let options := Sample.options None in
  let event :=
    delivered_event (host := Reference.platform) options request Sample.eventId Sample.payload
      (clock w 1) in
  HandlerCalled event
    ∈ effects (withHookRelay (host := Reference.platform) Sample.succeeding options request) w
  ∧ event_providerEventId event ≠ VUndefined
  ∧ event_providerEventId event ≠ VNull
  ∧ (∀ fields,
       provider options = js "stripe" →
       event_payload event = VObject fields →
       lookup_field (js "id") fields ≠ VUndefined →
       lookup_field (js "id") fields ≠ VNull →
       event_providerEventId event = lookup_field (js "id") fields)
  ∧ (∀ fields,
       event_payload event = VObject fields →
       lookup_field (js "id") fields = VUndefined ∨ lookup_field (js "id") fields = VNull →
       event_providerEventId event = VString (event_id event))
  ∧ ((∀ fields, event_payload event ≠ VObject fields) →
     event_providerEventId event = VString (event_id event))
  ∧ (provider options ≠ js "stripe" →
     event_providerEventId event = VString (event_id event)).
Proof.
  intros w request options event.
  assert (Hin : HandlerCalled event
                ∈ effects (withHookRelay (host := Reference.platform) Sample.succeeding options
                             request) w)
    by (vm_compute; apply list_elem_of_here).
  exact (conj Hin
           (providerEventId_fallback (host := Reference.platform) w Sample.succeeding options
              request event Hin)).
Defined.

Lemma event_mirrors_request_witness :
  let w := Sample.world Sample.env Sample.accepting in
  let request := Sample.delivery (js "false") Sample.payload_text in
  let options := Sample.options None in
  let event :=
    delivered_event (host := Reference.platform) options request Sample.eventId Sample.payload
      (clock w 1) in
  HandlerCalled event
    ∈ effects (withHookRelay (host := Reference.platform) Sample.succeeding options request) w
  ∧ (∀ text n, Headers_get (headers request) HEADERS_ATTEMPT = Some text →
               parseInt text = Some n → Z.abs n ≤ 2 ^ 53)
  ∧ Headers_get (headers request) HEADERS_EVENT_ID = Some (event_id event)
  ∧ event_id event ≠ []
  ∧ Headers_get (headers request) HEADERS_PROVIDER = Some (event_provider event)
  ∧ event_provider event = provider options
  ∧ JSON_parse (Platform := Reference.platform) (body request) = Some (event_payload event)
  ∧ event_receivedAt event = Date_toISOString (Platform := Reference.platform) (clock w 1)
  ∧ event_attempt event
    = match Headers_get (headers request) HEADERS_ATTEMPT with
      | None | Some [] => Some 1
      | Some text => parseInt text
      end.
Proof.
  intros w request options event.
  assert (Hin : HandlerCalled event
                ∈ effects (withHookRelay (host := Reference.platform) Sample.succeeding options
                             request) w)
    by (vm_compute; apply list_elem_of_here).
  assert (Hexact : ∀ text n, Headers_get (headers request) HEADERS_ATTEMPT = Some text →
                             parseInt text = Some n → Z.abs n ≤ 2 ^ 53).
  { intros text n Hheader. vm_compute in Hheader. injection Hheader as <-.
    intros Hparse. vm_compute in Hparse. injection Hparse as <-.
    vm_compute. discriminate. }
  exact (conj Hin (conj Hexact
           (event_mirrors_request (host := Reference.platform) w Sample.succeeding options
              request event Hin Hexact))).
Defined.

Lemma report_authenticated_witness :
  let w := Sample.world Sample.env Sample.accepting in
  let request := Sample.delivery (js "false") Sample.payload_text in
  let options := Sample.options None in
  let call :=
    {| url := js "https://api.hookrelay.io/v1/events/evt_test123/outcome";
       method := js "POST";
       fetch_headers := [("Content-Type", js "application/json");
                         ("Authorization", js "Bearer hr_sec_test_secret")];
       fetch_body := Sample.report (js "success") [] |} in
  Fetched call
    ∈ effects (withHookRelay (host := Reference.platform) Sample.succeeding options request) w
  ∧ ∃ secret,
      process_env w !! "HOOKRELAY_SECRET" = Some secret
      ∧ secret ≠ []
      ∧ fetch_headers call = [("Content-Type", js "application/json");
                              ("Authorization", js "Bearer " ++ secret)].
Proof.
  intros w request options call.
  assert (Hin : Fetched call
                ∈ effects (withHookRelay (host := Reference.platform) Sample.succeeding options
                             request) w)
    by (vm_compute; apply list_elem_of_further, list_elem_of_here).
  exact (conj Hin
           (report_authenticated (host := Reference.platform) w Sample.succeeding options
              request call Hin)).
Defined.


(** The event of a delivery, for Stripe and for another provider, and the
    attempt read from a header that is not a number. *)
Example delivered_events :
  let w := Sample.world Sample.env Sample.accepting in
  let delivered options request :=
    invocations
      (effects (withHookRelay (host := Reference.platform) Sample.succeeding options request)
         w) in
  (event_providerEventId <$> delivered (Sample.options None)
                               (Sample.delivery (js "false") Sample.payload_text))
  = [VString (js "evt_stripe_123")]
  ∧ (event_providerEventId
       <$> delivered {| provider := js "github"; timeoutMs := None;
                        enforceIdempotency := None; allowReplay := None |}
             (Sample.request (js "github") (String_of_number Sample.time)
                (Sample.signature_for Sample.time Sample.payload_text) (js "false")
                Sample.payload_text))
    = [VString Sample.eventId]
  ∧ (event_providerEventId <$> delivered (Sample.options None)
                                 (Sample.delivery (js "false") (js "null")))
    = [VString Sample.eventId]
  ∧ (event_attempt <$> delivered (Sample.options None)
                         (Sample.delivery (js "false") Sample.payload_text))
    = [Some 1].
Proof. vm_compute. repeat split; reflexivity. Qed.

(** What a caller and the relay see of the sample delivery when the
    callback throws an object that [String] cannot convert: no response,
    since the wrapper throws, and no report. *)
Example unrecorded_failure :
  Sample.observe Sample.throwing_object Sample.accepting = (None, [])
  ∧ Sample.observe Sample.throwing_object Sample.refusing = (None, []).
Proof. split; vm_compute; reflexivity. Qed.
